(** * The provider dispatch layer of [src/server.ts]

    A shallow embedding of the three POST handlers ([/api/text], [/api/image],
    [/api/pdf]) and of the adapter functions they call.  The backends are
    external: they are an oracle ([Backend]) that answers each request with a
    response, a stream of chunks, or a fault.  A handler is a computation in a
    small monad that threads the log of observable effects (backend calls and
    [console.error] lines) and an exception, so that [try]/[catch] reads as in
    the source.  The file's remaining logic is embedded too: the middleware
    that redirects to HTTPS, and the start-up sequence that decides whether
    the HTTPS server is started. *)

From Stdlib Require Import String Ascii List Bool Arith Lia ZArith ZifyNat.
Import ListNotations.
Local Open Scope string_scope.

(** ** JavaScript values and operators *)

Module Js.

(** The values a field of a parsed request body holds at run time when the
    client follows the declared [TextRequest]/[FileRequest] shape loosely: the
    field is missing, is JSON [null], or is a string. *)
Inductive Value : Type :=
| Undefined
| Null
| Str (s : string).

(** [!!v] *)
Definition truthy (v : Value) : bool :=
  match v with
  | Str s => negb (s =? "")
  | Undefined | Null => false
  end.

(** [a || b] *)
Definition orElse (a b : Value) : Value := if truthy a then a else b.

(** A destructuring default, [{ x = d }]: used only when the field is
    [undefined]. *)
Definition defaultTo (v d : Value) : Value :=
  match v with
  | Undefined => d
  | _ => v
  end.

(** [v === 'lit'], the comparison a [switch] makes against a string case. *)
Definition strictEq (v : Value) (lit : string) : bool :=
  match v with
  | Str s => s =? lit
  | Undefined | Null => false
  end.

(** String conversion, as in [s += v] and in a template literal. *)
Definition toString (v : Value) : string :=
  match v with
  | Undefined => "undefined"
  | Null => "null"
  | Str s => s
  end.

(** [s || ''] for [s : string | null | undefined]. *)
Definition orEmpty (v : Value) : string := toString (orElse v (Str "")).

End Js.

(** ** [JSON.stringify] on an object with one string field *)

Module Json.

Definition dquote : string := String "034"%char EmptyString.
Definition backslash : string := String "092"%char EmptyString.

Definition hexDigit (n : nat) : ascii :=
  match String.get n "0123456789abcdef" with
  | Some c => c
  | None => "0"%char
  end.

(** The escape of one character inside a JSON string. *)
Definition escapeChar (c : ascii) : string :=
  let n := nat_of_ascii c in
  if (n =? 34)%nat then backslash ++ dquote
  else if (n =? 92)%nat then backslash ++ backslash
  else if (n =? 8)%nat then backslash ++ "b"
  else if (n =? 12)%nat then backslash ++ "f"
  else if (n =? 10)%nat then backslash ++ "n"
  else if (n =? 13)%nat then backslash ++ "r"
  else if (n =? 9)%nat then backslash ++ "t"
  else if (n <? 32)%nat then
    backslash ++ "u00" ++ String (hexDigit (n / 16)) (String (hexDigit (n mod 16)) "")
  else String c "".

Fixpoint escape (s : string) : string :=
  match s with
  | EmptyString => ""
  | String c rest => escapeChar c ++ escape rest
  end.

Definition quote (s : string) : string := dquote ++ escape s ++ dquote.

(** [JSON.stringify({ key: value })] *)
Definition stringifyField (key value : string) : string :=
  "{" ++ quote key ++ ":" ++ quote value ++ "}".

End Json.

(** ** [Buffer.prototype.toString('base64')] *)

Module Base64.

Definition alphabet : string :=
  "ABCDEFGHIJKLMNOPQRSTUVWXYZabcdefghijklmnopqrstuvwxyz0123456789+/".

Definition digit (n : nat) : ascii :=
  match String.get n alphabet with
  | Some c => c
  | None => "="%char
  end.

Fixpoint encodeBytes (bytes : list nat) : string :=
  match bytes with
  | [] => ""
  | [a] =>
      String (digit (a / 4)) (String (digit ((a mod 4) * 16)) "==")
  | [a; b] =>
      String (digit (a / 4))
        (String (digit ((a mod 4) * 16 + b / 16))
           (String (digit ((b mod 16) * 4)) "="))
  | a :: b :: c :: rest =>
      String (digit (a / 4))
        (String (digit ((a mod 4) * 16 + b / 16))
           (String (digit ((b mod 16) * 4 + c / 64))
              (String (digit (c mod 64)) (encodeBytes rest))))
  end.

Definition encode (buffer : string) : string :=
  encodeBytes (map nat_of_ascii (list_ascii_of_string buffer)).

End Base64.

(** ** The backends

    What the three SDK clients ([googleAI], [openAI], [deepseekAI]) are sent and
    what they answer. *)

Definition Cause : Type := string.

(** One element of [parts] in a [generateContentStream] request. *)
Inductive Part : Type :=
| InlineData (data mimeType : string)
| TextPart (text : Js.Value).

(** [{ model, config: { responseMimeType }, contents: [{ role: 'user', parts }] }] *)
Record GenerateContentRequest : Type := {
  gc_model : string;
  gc_responseMimeType : string;
  gc_parts : list Part
}.

(** One element of the [content] array of a chat message. *)
Inductive ContentPart : Type :=
| ContentText (text : Js.Value)
| ContentImageUrl (url : string).

Inductive UserContent : Type :=
| PlainContent (text : Js.Value)
| PartsContent (parts : list ContentPart).

(** [{ model, messages: [{ role: 'system', content }, { role: 'user', content }] }] *)
Record ChatRequest : Type := {
  chat_model : string;
  chat_system : string;
  chat_user : UserContent
}.

(** A chunk of a streamed answer; [chunk.text] is a string or [undefined]. *)
Record Chunk : Type := { chunk_text : Js.Value }.

(** The async iterable [generateContentStream] resolves to: the chunks it
    yields, in order, and then either its end or a rejection. *)
Record Stream : Type := {
  chunks : list Chunk;
  fault : option Cause
}.

Record Message : Type := { content : Js.Value }.
Record Choice : Type := { message : option Message }.
Record ChatCompletion : Type := { choices : list Choice }.

(** Each client call resolves ([inr]) or rejects ([inl]). *)
Record Backend : Type := {
  googleAI : GenerateContentRequest -> Cause + Stream;
  openAI : ChatRequest -> Cause + ChatCompletion;
  deepseekAI : ChatRequest -> Cause + ChatCompletion
}.

(** ** Observable effects *)

Inductive Event : Type :=
| GoogleCall (req : GenerateContentRequest)
| OpenAICall (req : ChatRequest)
| DeepSeekCall (req : ChatRequest)
| ConsoleError (label : string) (error : Cause).

Inductive Outcome (A : Type) : Type :=
| Returned (a : A)
| Thrown (error : Cause).
Arguments Returned {A} a.
Arguments Thrown {A} error.

(** An async function body: it extends the log and returns or throws. *)
Definition Async (A : Type) : Type := list Event -> Outcome A * list Event.

Definition ret {A} (a : A) : Async A := fun log => (Returned a, log).

Definition throw {A} (error : Cause) : Async A := fun log => (Thrown error, log).

Definition bind {A B} (m : Async A) (k : A -> Async B) : Async B :=
  fun log =>
    match m log with
    | (Returned a, log') => k a log'
    | (Thrown error, log') => (Thrown error, log')
    end.

Definition emit (e : Event) : Async unit := fun log => (Returned tt, (log ++ [e])%list).

(** [try { body } catch (error) { handler }] *)
Definition tryCatch {A} (body : Async A) (handler : Cause -> Async A) : Async A :=
  fun log =>
    match body log with
    | (Returned a, log') => (Returned a, log')
    | (Thrown error, log') => handler error log'
    end.

(** [await] of a client call: the call is recorded, then resolves or rejects. *)
Definition await {A} (e : Event) (answer : Cause + A) : Async A :=
  bind (emit e) (fun _ =>
    match answer with
    | inr a => ret a
    | inl error => throw error
    end).

Declare Scope async_scope.
Delimit Scope async_scope with async.
Notation "x <- m ;; k" := (bind m (fun x => k))
  (at level 61, m at next level, right associativity) : async_scope.
Notation "m ;; k" := (bind m (fun _ => k))
  (at level 61, right associativity) : async_scope.
Local Open Scope async_scope.

Definition run {A} (m : Async A) : Outcome A * list Event := m [].

(** ** The adapters *)

Definition jsonInstruction : string :=
  "You must respond with valid JSON format. Structure your response as a JSON object with relevant fields.".

(** [for await (const chunk of response) { result += chunk.text; }], followed
    by what comes after the loop when the iterable ends without a fault. *)
Fixpoint forAwait (pending : list Chunk) (ending : option Cause) (result : string)
  : Async string :=
  match pending with
  | chunk :: rest => forAwait rest ending (result ++ Js.toString (chunk_text chunk))
  | [] =>
      match ending with
      | Some cause => throw cause
      | None => ret result
      end
  end.

Definition accumulate (response : Stream) : Async string :=
  forAwait (chunks response) (fault response) "".

(** [response.choices[0]?.message?.content || ''] *)
Definition firstContent (response : ChatCompletion) : string :=
  match choices response with
  | choice :: _ =>
      match message choice with
      | Some m => Js.orEmpty (content m)
      | None => Js.orEmpty Js.Undefined
      end
  | [] => Js.orEmpty Js.Undefined
  end.

Definition textContents (text : Js.Value) : GenerateContentRequest :=
  {| gc_model := "gemini-2.0-flash";
     gc_responseMimeType := "application/json";
     gc_parts := [TextPart text] |}.

Definition inlineContents (base64Data mimeType : string) (question : Js.Value)
  : GenerateContentRequest :=
  {| gc_model := "gemini-2.0-flash";
     gc_responseMimeType := "application/json";
     gc_parts := [InlineData base64Data mimeType; TextPart question] |}.

Definition textMessages (model : string) (text : Js.Value) : ChatRequest :=
  {| chat_model := model;
     chat_system := jsonInstruction;
     chat_user := PlainContent text |}.

Definition imageMessages (base64Data mimeType : string) (question : Js.Value)
  : ChatRequest :=
  {| chat_model := "gpt-4o";
     chat_system := jsonInstruction;
     chat_user :=
       PartsContent
         [ContentText question;
          ContentImageUrl ("data:" ++ mimeType ++ ";base64," ++ base64Data)] |}.

Definition processTextWithGoogle (be : Backend) (text : Js.Value) : Async string :=
  let contents := textContents text in
  response <- await (GoogleCall contents) (googleAI be contents) ;;
  accumulate response.

Definition processTextWithOpenAI (be : Backend) (text : Js.Value) : Async string :=
  let messages := textMessages "gpt-4o" text in
  response <- await (OpenAICall messages) (openAI be messages) ;;
  ret (firstContent response).

Definition processTextWithDeepSeek (be : Backend) (text : Js.Value) : Async string :=
  let messages := textMessages "deepseek-chat" text in
  response <- await (DeepSeekCall messages) (deepseekAI be messages) ;;
  ret (firstContent response).

Definition processImageWithGoogle (be : Backend) (base64Data mimeType : string)
  (question : Js.Value) : Async string :=
  let contents := inlineContents base64Data mimeType question in
  response <- await (GoogleCall contents) (googleAI be contents) ;;
  accumulate response.

Definition processImageWithOpenAI (be : Backend) (base64Data mimeType : string)
  (question : Js.Value) : Async string :=
  let messages := imageMessages base64Data mimeType question in
  response <- await (OpenAICall messages) (openAI be messages) ;;
  ret (firstContent response).

Definition processImageWithDeepSeek (be : Backend) (base64Data mimeType : string)
  (question : Js.Value) : Async string :=
  ret (Json.stringifyField "error" "DeepSeek does not currently support image analysis").

(** ** The handlers *)

Record TextRequest : Type := {
  text : Js.Value;
  text_provider : Js.Value
}.

(** The text fields of a multipart form ([req.body]). *)
Record FileRequest : Type := {
  question : Js.Value;
  provider : Js.Value
}.

(** What [upload.single] leaves in [req.file]. *)
Record File : Type := {
  mimetype : string;
  buffer : string
}.

Record UploadRequest : Type := {
  body : FileRequest;
  file : option File
}.

Record ApiResponse : Type := {
  response : option string;
  error : option string
}.

Record HttpResponse : Type := {
  status : nat;
  json : ApiResponse
}.

(** [res.status(400).json({ error })] *)
Definition badRequest (message : string) : HttpResponse :=
  {| status := 400; json := {| response := None; error := Some message |} |}.

(** [res.json({ response: result })] *)
Definition success (result : string) : HttpResponse :=
  {| status := 200; json := {| response := Some result; error := None |} |}.

(** [res.status(500).json({ error: 'Internal server error' })] *)
Definition internalServerError : HttpResponse :=
  {| status := 500; json := {| response := None; error := Some "Internal server error" |} |}.

Definition defaultImageQuestion : string := "What are you seeing in this picture?".
Definition defaultPdfQuestion : string := "What are you seeing in this PDF?".

(** [app.post('/api/text', ...)] *)
Definition postApiText (be : Backend) (req : TextRequest) : Async HttpResponse :=
  tryCatch
    (let text := text req in
     let provider := Js.defaultTo (text_provider req) (Js.Str "google") in
     if negb (Js.truthy text) then ret (badRequest "Text is required")
     else
       result <-
         (if Js.strictEq provider "openai" then processTextWithOpenAI be text
          else if Js.strictEq provider "deepseek" then processTextWithDeepSeek be text
          else processTextWithGoogle be text) ;;
       ret (success result))
    (fun cause =>
       emit (ConsoleError "Error processing text:" cause) ;;
       ret internalServerError).

(** [app.post('/api/image', upload.single('image'), ...)] *)
Definition postApiImage (be : Backend) (req : UploadRequest) : Async HttpResponse :=
  tryCatch
    (let question := question (body req) in
     let provider := Js.defaultTo (provider (body req)) (Js.Str "google") in
     match file req with
     | None => ret (badRequest "Image file is required")
     | Some file =>
         if negb (String.prefix "image/" (mimetype file))
         then ret (badRequest "File must be an image")
         else
           let base64Data := Base64.encode (buffer file) in
           let questionText := Js.orElse question (Js.Str defaultImageQuestion) in
           result <-
             (if Js.strictEq provider "openai"
              then processImageWithOpenAI be base64Data (mimetype file) questionText
              else if Js.strictEq provider "deepseek"
              then processImageWithDeepSeek be base64Data (mimetype file) questionText
              else processImageWithGoogle be base64Data (mimetype file) questionText) ;;
           ret (success result)
     end)
    (fun cause =>
       emit (ConsoleError "Error processing image:" cause) ;;
       ret internalServerError).

(** [app.post('/api/pdf', upload.single('pdf'), ...)] *)
Definition postApiPdf (be : Backend) (req : UploadRequest) : Async HttpResponse :=
  tryCatch
    (let question := question (body req) in
     let provider := Js.defaultTo (provider (body req)) (Js.Str "google") in
     match file req with
     | None => ret (badRequest "PDF file is required")
     | Some file =>
         if negb (mimetype file =? "application/pdf")
         then ret (badRequest "File must be a PDF")
         else
           let base64Data := Base64.encode (buffer file) in
           let questionText := Js.orElse question (Js.Str defaultPdfQuestion) in
           result <-
             (if Js.strictEq provider "openai" || Js.strictEq provider "deepseek"
              then
                ret (Json.stringifyField "error"
                       (Js.toString provider ++ " does not currently support PDF analysis"))
              else
                let contents := inlineContents base64Data "application/pdf" questionText in
                response <- await (GoogleCall contents) (googleAI be contents) ;;
                accumulate response) ;;
           ret (success result)
     end)
    (fun cause =>
       emit (ConsoleError "Error processing PDF:" cause) ;;
       ret internalServerError).

(** ** Vocabulary of the properties *)

(** The identifiers of [type AIProvider]. *)
Definition recognized (id : string) : bool :=
  (id =? "google") || (id =? "openai") || (id =? "deepseek").

(** The provider field takes the [case 'google': default:] branch. *)
Definition selectsGoogle (p : Js.Value) : bool :=
  negb (Js.strictEq p "openai" || Js.strictEq p "deepseek").

(** The chunks of a stream whose fragments are the given strings. *)
Definition fragments (texts : list string) : list Chunk :=
  map (fun t => {| chunk_text := Js.Str t |}) texts.

(** A stream that yields the given fragments in order and then ends. *)
Definition delivers (texts : list string) : Stream :=
  {| chunks := fragments texts; fault := None |}.

(** What the chunks of a stream add to the accumulated string. *)
Definition joined (cs : list Chunk) : string :=
  String.concat "" (map (fun c => Js.toString (chunk_text c)) cs).

(** How an adapter that drains a stream ends, given the client's answer. *)
Definition streamOutcome (answer : Cause + Stream) : Outcome string :=
  match answer with
  | inl cause => Thrown cause
  | inr s =>
      match fault s with
      | Some cause => Thrown cause
      | None => Returned (joined (chunks s))
      end
  end.

(** How an adapter that reads a chat completion ends. *)
Definition chatOutcome (answer : Cause + ChatCompletion) : Outcome string :=
  match answer with
  | inl cause => Thrown cause
  | inr r => Returned (firstContent r)
  end.

(** The fault, if any, with which a backend answers a recorded call: the call
    is rejected, or the stream it resolved to breaks off. *)
Definition faultOf (be : Backend) (e : Event) : option Cause :=
  match e with
  | GoogleCall req =>
      match googleAI be req with
      | inl cause => Some cause
      | inr s => fault s
      end
  | OpenAICall req =>
      match openAI be req with
      | inl cause => Some cause
      | inr _ => None
      end
  | DeepSeekCall req =>
      match deepseekAI be req with
      | inl cause => Some cause
      | inr _ => None
      end
  | ConsoleError _ _ => None
  end.

Definition isBackendCall (e : Event) : bool :=
  match e with
  | ConsoleError _ _ => false
  | _ => true
  end.

(** The prompt texts a recorded call carries to its backend. *)
Definition promptsOf (e : Event) : list Js.Value :=
  match e with
  | GoogleCall req =>
      flat_map (fun p => match p with TextPart t => [t] | InlineData _ _ => [] end)
        (gc_parts req)
  | OpenAICall req | DeepSeekCall req =>
      match chat_user req with
      | PlainContent t => [t]
      | PartsContent ps =>
          flat_map (fun p => match p with ContentText t => [t] | ContentImageUrl _ => [] end) ps
      end
  | ConsoleError _ _ => []
  end.

Definition promptsSent (trace : list Event) : list Js.Value :=
  flat_map promptsOf trace.

(** [needle] occurs in [hay]. *)
Definition contains (needle hay : string) : bool :=
  match String.index 0 needle hay with
  | Some _ => true
  | None => false
  end.

(** How a handler finishes once its adapter has ended: [res.json] after the
    [switch], or the [catch] block. *)
Definition finish (label : string) (o : Outcome string) (log : list Event)
  : Outcome HttpResponse * list Event :=
  match o with
  | Returned result => (Returned (success result), log)
  | Thrown cause => (Returned internalServerError, (log ++ [ConsoleError label cause])%list)
  end.

(** A handler body that only calls one adapter and replies with its result. *)
Definition answering (label : string) (adapter : Async string) : Async HttpResponse :=
  tryCatch (result <- adapter ;; ret (success result))
    (fun cause =>
       emit (ConsoleError label cause) ;;
       ret internalServerError).

(** The two ways a handler ends once it has called a backend: the call is
    answered without a fault and the result goes out under [response], or it
    faults and the [catch] block logs the cause and sends the server error. *)
Inductive Called (be : Backend) (label : string) (log : list Event)
  : Outcome HttpResponse * list Event -> Prop :=
| Answered (e : Event) (result : string) :
    isBackendCall e = true ->
    faultOf be e = None ->
    Called be label log (Returned (success result), (log ++ [e])%list)
| Faulted (e : Event) (cause : Cause) :
    isBackendCall e = true ->
    faultOf be e = Some cause ->
    Called be label log
      (Returned internalServerError, (log ++ [e; ConsoleError label cause])%list).

(** Every way a handler ends: the input is rejected, the provider lacks the
    modality and the handler says so without calling it, or a backend is
    called. *)
Inductive Ran (be : Backend) (label : string) (log : list Event)
  : Outcome HttpResponse * list Event -> Prop :=
| Rejected (message : string) :
    Ran be label log (Returned (badRequest message), log)
| Unsupported (payload : string) :
    Ran be label log (Returned (success payload), log)
| Reached (out : Outcome HttpResponse * list Event) :
    Called be label log out ->
    Ran be label log out.

(** The three dispatch operations. *)
Inductive Route : Type :=
| TextRoute (req : TextRequest)
| ImageRoute (req : UploadRequest)
| PdfRoute (req : UploadRequest).

Definition dispatch (be : Backend) (r : Route) : Async HttpResponse :=
  match r with
  | TextRoute req => postApiText be req
  | ImageRoute req => postApiImage be req
  | PdfRoute req => postApiPdf be req
  end.

(** The prefix of the route's [console.error] line. *)
Definition routeLabel (r : Route) : string :=
  match r with
  | TextRoute _ => "Error processing text:"
  | ImageRoute _ => "Error processing image:"
  | PdfRoute _ => "Error processing PDF:"
  end.

(** The adapter the [switch] of [/api/image] calls for a provider value. *)
Definition imageAdapter (provider : Js.Value)
  : Backend -> string -> string -> Js.Value -> Async string :=
  if Js.strictEq provider "openai" then processImageWithOpenAI
  else if Js.strictEq provider "deepseek" then processImageWithDeepSeek
  else processImageWithGoogle.

(** Sample backends. *)
Definition oneChoice (s : string) : ChatCompletion :=
  {| choices := [{| message := Some {| content := Js.Str s |} |}] |}.

Definition helloBackend : Backend :=
  {| googleAI := fun _ => inr (delivers ["Hel"; "lo"]);
     openAI := fun _ => inr (oneChoice "{}");
     deepseekAI := fun _ => inr (oneChoice "{}") |}.

Definition refusing (cause : Cause) : Backend :=
  {| googleAI := fun _ => inl cause;
     openAI := fun _ => inl cause;
     deepseekAI := fun _ => inl cause |}.

(** Google resolves, yields one fragment, then the stream breaks off. *)
Definition breaking (cause : Cause) : Backend :=
  {| googleAI := fun _ => inr {| chunks := fragments ["Hel"]; fault := Some cause |};
     openAI := fun _ => inl cause;
     deepseekAI := fun _ => inl cause |}.

Definition png : File := {| mimetype := "image/png"; buffer := "Man" |}.
Definition pdf : File := {| mimetype := "application/pdf"; buffer := "%PDF" |}.

(** ** The redirect to HTTPS

    The middleware installed when the certificate files could be read. *)

(** [\d] *)
Definition isDigit (c : ascii) : bool :=
  let n := nat_of_ascii c in (48 <=? n)%nat && (n <=? 57)%nat.

Fixpoint allDigits (s : string) : bool :=
  match s with
  | EmptyString => true
  | String c rest => isDigit c && allDigits rest
  end.

(** [/:\d+$/] matches the whole of [s]: a colon, then one or more digits up
    to the end of the string. *)
Definition isPort (s : string) : bool :=
  match s with
  | EmptyString => false
  | String c rest => (c =? ":")%char && negb (rest =? "") && allDigits rest
  end.

(** [host.replace(/:\d+$/, ':443')]: the leftmost position where the pattern
    matches is replaced; with no match the string is returned as it is. *)
Fixpoint replacePort (host : string) : string :=
  match host with
  | EmptyString => EmptyString
  | String c rest => if isPort host then ":443" else String c (replacePort rest)
  end.

(** What the middleware reads of a request. *)
Record IncomingMessage : Type := {
  protocol : string;
  host : Js.Value;
  originalUrl : string
}.

Inductive Handled : Type :=
| Redirected (code : nat) (location : string)
| Next.

(** [req.headers.host?.replace(/:\d+$/, ':443') || ''] *)
Definition redirectHost (h : Js.Value) : string :=
  Js.orEmpty
    (match h with
     | Js.Str s => Js.Str (replacePort s)
     | Js.Undefined | Js.Null => Js.Undefined
     end).

(** [(req, res, next) => { if (req.protocol === 'http') { ... } next(); }] *)
Definition redirectToHttps (req : IncomingMessage) : Handled :=
  if protocol req =? "http"
  then Redirected 301 ("https://" ++ redirectHost (host req) ++ originalUrl req)
  else Next.

(** ** Start-up *)











(** ** Reading base64 back

    The inverse of [Base64.encode], as the receiving backend computes it; it
    is used to state that an upload is sent without loss. *)

Module Base64Decode.

Fixpoint indexFrom (n : nat) (c : ascii) (s : string) : option nat :=
  match s with
  | EmptyString => None
  | String d rest => if (c =? d)%char then Some n else indexFrom (S n) c rest
  end.

(** The six bits a character of the alphabet stands for. *)
Definition value (c : ascii) : option nat := indexFrom 0 c Base64.alphabet.

Definition isPad (c : ascii) : bool := (c =? "=")%char.

Fixpoint decodeChars (cs : list ascii) : option (list nat) :=
  match cs with
  | [] => Some []
  | [c0; c1; c2; c3] =>
      match value c0, value c1 with
      | Some v0, Some v1 =>
          let b0 := v0 * 4 + v1 / 16 in
          if isPad c2 && isPad c3 then Some [b0]
          else
            match value c2 with
            | Some v2 =>
                let b1 := (v1 mod 16) * 16 + v2 / 4 in
                if isPad c3 then Some [b0; b1]
                else
                  match value c3 with
                  | Some v3 => Some [b0; b1; (v2 mod 4) * 64 + v3]
                  | None => None
                  end
            | None => None
            end
      | _, _ => None
      end
  | c0 :: c1 :: c2 :: c3 :: rest =>
      match value c0, value c1, value c2, value c3, decodeChars rest with
      | Some v0, Some v1, Some v2, Some v3, Some bytes =>
          Some (v0 * 4 + v1 / 16 :: (v1 mod 16) * 16 + v2 / 4 :: (v2 mod 4) * 64 + v3 :: bytes)
      | _, _, _, _, _ => None
      end
  | _ => None
  end.

Definition decode (s : string) : option string :=
  match decodeChars (list_ascii_of_string s) with
  | Some bytes => Some (string_of_list_ascii (map ascii_of_nat bytes))
  | None => None
  end.

End Base64Decode.

(** * Properties *)

(** ** Strings *)

Lemma append_nil_r (s : string) : s ++ "" = s.
Proof. induction s as [|c s IH]; simpl; [reflexivity | now rewrite IH]. Qed.

Lemma append_assoc (a b c : string) : (a ++ b) ++ c = a ++ (b ++ c).
Proof. induction a as [|x a IH]; simpl; [reflexivity | now rewrite IH]. Qed.

Lemma length_append (a b : string) :
  String.length (a ++ b) = String.length a + String.length b.
Proof. induction a as [|x a IH]; simpl; [reflexivity | now rewrite IH]. Qed.

Lemma concat_cons (x : string) (xs : list string) :
  String.concat "" (x :: xs) = x ++ String.concat "" xs.
Proof.
  destruct xs as [|y ys]; simpl.
  - now rewrite append_nil_r.
  - reflexivity.
Qed.

Lemma joined_cons (c : Chunk) (cs : list Chunk) :
  joined (c :: cs) = Js.toString (chunk_text c) ++ joined cs.
Proof. unfold joined. rewrite map_cons. apply concat_cons. Qed.

Lemma joined_app (cs ds : list Chunk) : joined (cs ++ ds) = joined cs ++ joined ds.
Proof.
  induction cs as [|c cs IH]; [reflexivity|].
  rewrite <- app_comm_cons, !joined_cons, IH. now rewrite append_assoc.
Qed.

Lemma joined_fragments (texts : list string) :
  joined (fragments texts) = String.concat "" texts.
Proof.
  unfold joined, fragments. rewrite map_map. simpl. now rewrite map_id.
Qed.

(** ** The monad and the loop *)

Lemma forAwait_eq (pending : list Chunk) (ending : option Cause) (result : string)
  (log : list Event) :
  forAwait pending ending result log =
  (match ending with
   | Some cause => Thrown cause
   | None => Returned (result ++ joined pending)
   end, log).
Proof.
  revert result. induction pending as [|c cs IH]; intros result; simpl.
  - destruct ending; [reflexivity|]. unfold ret. now rewrite append_nil_r.
  - rewrite IH. destruct ending; [reflexivity|].
    now rewrite joined_cons, append_assoc.
Qed.

Lemma await_stream_eq (e : Event) (answer : Cause + Stream) (log : list Event) :
  bind (await e answer) accumulate log = (streamOutcome answer, (log ++ [e])%list).
Proof.
  unfold bind, await, emit, accumulate, streamOutcome, bind, ret, throw.
  destruct answer as [cause|s]; [reflexivity|].
  rewrite forAwait_eq. destruct (fault s); reflexivity.
Qed.

Lemma await_chat_eq (e : Event) (answer : Cause + ChatCompletion) (log : list Event) :
  bind (await e answer) (fun r => ret (firstContent r)) log =
  (chatOutcome answer, (log ++ [e])%list).
Proof.
  unfold bind, await, emit, chatOutcome, bind, ret, throw.
  destruct answer; reflexivity.
Qed.

(** ** The adapters, as functions of the backend's answer *)

Lemma processTextWithGoogle_eq (be : Backend) (t : Js.Value) (log : list Event) :
  processTextWithGoogle be t log =
  (streamOutcome (googleAI be (textContents t)), (log ++ [GoogleCall (textContents t)])%list).
Proof. apply await_stream_eq. Qed.

Lemma processTextWithOpenAI_eq (be : Backend) (t : Js.Value) (log : list Event) :
  processTextWithOpenAI be t log =
  (chatOutcome (openAI be (textMessages "gpt-4o" t)),
   (log ++ [OpenAICall (textMessages "gpt-4o" t)])%list).
Proof. apply await_chat_eq. Qed.

Lemma processTextWithDeepSeek_eq (be : Backend) (t : Js.Value) (log : list Event) :
  processTextWithDeepSeek be t log =
  (chatOutcome (deepseekAI be (textMessages "deepseek-chat" t)),
   (log ++ [DeepSeekCall (textMessages "deepseek-chat" t)])%list).
Proof. apply await_chat_eq. Qed.

Lemma processImageWithGoogle_eq (be : Backend) (d m : string) (q : Js.Value)
  (log : list Event) :
  processImageWithGoogle be d m q log =
  (streamOutcome (googleAI be (inlineContents d m q)),
   (log ++ [GoogleCall (inlineContents d m q)])%list).
Proof. apply await_stream_eq. Qed.

Lemma processImageWithOpenAI_eq (be : Backend) (d m : string) (q : Js.Value)
  (log : list Event) :
  processImageWithOpenAI be d m q log =
  (chatOutcome (openAI be (imageMessages d m q)),
   (log ++ [OpenAICall (imageMessages d m q)])%list).
Proof. apply await_chat_eq. Qed.

(** ** The handlers, as functions of the adapter's outcome *)

Lemma settle_eq (label : string) (m : Async string) (o : Outcome string)
  (log log' : list Event) :
  m log = (o, log') ->
  answering label m log = finish label o log'.
Proof.
  intros E. unfold answering, tryCatch, bind. rewrite E. destruct o; reflexivity.
Qed.

Lemma postApiText_eq (be : Backend) (req : TextRequest) (log : list Event) :
  postApiText be req log =
  if negb (Js.truthy (text req)) then (Returned (badRequest "Text is required"), log)
  else
    let provider := Js.defaultTo (text_provider req) (Js.Str "google") in
    if Js.strictEq provider "openai" then
      finish "Error processing text:"
        (chatOutcome (openAI be (textMessages "gpt-4o" (text req))))
        (log ++ [OpenAICall (textMessages "gpt-4o" (text req))])%list
    else if Js.strictEq provider "deepseek" then
      finish "Error processing text:"
        (chatOutcome (deepseekAI be (textMessages "deepseek-chat" (text req))))
        (log ++ [DeepSeekCall (textMessages "deepseek-chat" (text req))])%list
    else
      finish "Error processing text:"
        (streamOutcome (googleAI be (textContents (text req))))
        (log ++ [GoogleCall (textContents (text req))])%list.
Proof.
  unfold postApiText. cbv zeta.
  destruct (negb (Js.truthy (text req))); [reflexivity|].
  destruct (Js.strictEq _ "openai");
    [apply (settle_eq _ _ _ _ _), processTextWithOpenAI_eq|].
  destruct (Js.strictEq _ "deepseek");
    [apply (settle_eq _ _ _ _ _), processTextWithDeepSeek_eq|].
  apply (settle_eq _ _ _ _ _), processTextWithGoogle_eq.
Qed.

Lemma postApiImage_eq (be : Backend) (req : UploadRequest) (log : list Event) :
  postApiImage be req log =
  match file req with
  | None => (Returned (badRequest "Image file is required"), log)
  | Some f =>
      if negb (String.prefix "image/" (mimetype f))
      then (Returned (badRequest "File must be an image"), log)
      else
        let provider := Js.defaultTo (provider (body req)) (Js.Str "google") in
        let d := Base64.encode (buffer f) in
        let q := Js.orElse (question (body req)) (Js.Str defaultImageQuestion) in
        if Js.strictEq provider "openai" then
          finish "Error processing image:"
            (chatOutcome (openAI be (imageMessages d (mimetype f) q)))
            (log ++ [OpenAICall (imageMessages d (mimetype f) q)])%list
        else if Js.strictEq provider "deepseek" then
          (Returned
             (success
                (Json.stringifyField "error"
                   "DeepSeek does not currently support image analysis")), log)
        else
          finish "Error processing image:"
            (streamOutcome (googleAI be (inlineContents d (mimetype f) q)))
            (log ++ [GoogleCall (inlineContents d (mimetype f) q)])%list
  end.
Proof.
  unfold postApiImage. cbv zeta.
  destruct (file req) as [f|]; [|reflexivity].
  destruct (negb (String.prefix "image/" (mimetype f))); [reflexivity|].
  destruct (Js.strictEq _ "openai");
    [apply (settle_eq _ _ _ _ _), processImageWithOpenAI_eq|].
  destruct (Js.strictEq _ "deepseek"); [reflexivity|].
  apply (settle_eq _ _ _ _ _), processImageWithGoogle_eq.
Qed.

Lemma postApiPdf_eq (be : Backend) (req : UploadRequest) (log : list Event) :
  postApiPdf be req log =
  match file req with
  | None => (Returned (badRequest "PDF file is required"), log)
  | Some f =>
      if negb (mimetype f =? "application/pdf")
      then (Returned (badRequest "File must be a PDF"), log)
      else
        let provider := Js.defaultTo (provider (body req)) (Js.Str "google") in
        let d := Base64.encode (buffer f) in
        let q := Js.orElse (question (body req)) (Js.Str defaultPdfQuestion) in
        if Js.strictEq provider "openai" || Js.strictEq provider "deepseek" then
          (Returned
             (success
                (Json.stringifyField "error"
                   (Js.toString provider ++ " does not currently support PDF analysis"))),
           log)
        else
          finish "Error processing PDF:"
            (streamOutcome (googleAI be (inlineContents d "application/pdf" q)))
            (log ++ [GoogleCall (inlineContents d "application/pdf" q)])%list
  end.
Proof.
  unfold postApiPdf. cbv zeta.
  destruct (file req) as [f|]; [|reflexivity].
  destruct (negb (mimetype f =? "application/pdf")); [reflexivity|].
  destruct (Js.strictEq _ "openai" || Js.strictEq _ "deepseek"); [reflexivity|].
  apply (settle_eq _ _ _ _ _), await_stream_eq.
Qed.

(** ** Provider resolution *)

Lemma finish_returns (label : string) (o : Outcome string) (log : list Event) :
  exists resp trace,
    finish label o log = (Returned resp, (log ++ trace)%list) /\
    ((exists r, o = Returned r /\ resp = success r /\ trace = []) \/
     (exists cause,
        o = Thrown cause /\ resp = internalServerError /\
        trace = [ConsoleError label cause])).
Proof.
  destruct o as [r|cause]; simpl.
  - exists (success r), []. rewrite app_nil_r. split; [reflexivity|].
    left. now exists r.
  - exists internalServerError, [ConsoleError label cause]. split; [reflexivity|].
    right. now exists cause.
Qed.

Lemma unrecognized_strictEq (id : string) :
  recognized id = false ->
  Js.strictEq (Js.Str id) "openai" = false /\
  Js.strictEq (Js.Str id) "deepseek" = false.
Proof.
  unfold recognized. simpl. intros H.
  apply orb_false_iff in H as [H Hd]. apply orb_false_iff in H as [_ Ho].
  now split.
Qed.

(** C1: for a non-empty text, [/api/text] with an unrecognized provider
    identifier does exactly what it does with the provider omitted (and with
    ['google'] given): all three run the Google adapter on the text and reply
    with its result, and the handler returns a response that is not the
    validation error. *)
Theorem unknown_provider_is_default_provider
  (be : Backend) (t : Js.Value) (id : string) (log : list Event) :
  Js.truthy t = true ->
  recognized id = false ->
  let unknown := {| text := t; text_provider := Js.Str id |} in
  let omitted := {| text := t; text_provider := Js.Undefined |} in
  let google := {| text := t; text_provider := Js.Str "google" |} in
  let viaGoogle := answering "Error processing text:" (processTextWithGoogle be t) in
  postApiText be unknown log = postApiText be omitted log /\
  postApiText be omitted log = postApiText be google log /\
  postApiText be unknown log = viaGoogle log /\
  exists resp trace,
    postApiText be unknown log =
      (Returned resp, (log ++ GoogleCall (textContents t) :: trace)%list) /\
    status resp <> 400 /\
    filter isBackendCall trace = [].
Proof.
  intros Ht Hid. cbv zeta.
  destruct (unrecognized_strictEq id Hid) as [Ho Hd].
  assert (G : forall p,
             Js.strictEq (Js.defaultTo p (Js.Str "google")) "openai" = false ->
             Js.strictEq (Js.defaultTo p (Js.Str "google")) "deepseek" = false ->
             postApiText be {| text := t; text_provider := p |} log =
             finish "Error processing text:"
               (streamOutcome (googleAI be (textContents t)))
               (log ++ [GoogleCall (textContents t)])%list).
  { intros p Hpo Hpd. rewrite postApiText_eq. cbn [text text_provider].
    now rewrite Ht, Hpo, Hpd. }
  rewrite (G (Js.Str id) Ho Hd), (G Js.Undefined eq_refl eq_refl),
    (G (Js.Str "google") eq_refl eq_refl).
  repeat split.
  - symmetry. apply (settle_eq _ _ _ _ _), processTextWithGoogle_eq.
  - destruct (finish_returns "Error processing text:"
                (streamOutcome (googleAI be (textContents t)))
                (log ++ [GoogleCall (textContents t)])%list)
      as (resp & trace & E & [(r & _ & -> & ->) | (cause & _ & -> & ->)]);
      rewrite E, <- app_assoc; simpl.
    + exists (success r), []. repeat split; simpl; congruence.
    + exists internalServerError, [ConsoleError "Error processing text:" cause].
      repeat split; simpl; congruence.
Qed.

Lemma unknown_provider_is_default_provider_witness :
  postApiText helloBackend {| text := Js.Str "hello"; text_provider := Js.Str "unknown-id" |} [] =
  postApiText helloBackend {| text := Js.Str "hello"; text_provider := Js.Undefined |} [].
Proof.
  exact (proj1 (unknown_provider_is_default_provider helloBackend (Js.Str "hello")
                  "unknown-id" [] eq_refl eq_refl)).
Defined.

(** A provider field that is JSON [null] also ends in the Google adapter. *)
Lemma null_provider_is_default_provider (be : Backend) (t : Js.Value) (log : list Event) :
  postApiText be {| text := t; text_provider := Js.Null |} log =
  postApiText be {| text := t; text_provider := Js.Undefined |} log.
Proof. now rewrite !postApiText_eq. Qed.

(** ** Handlers that reach a backend *)

Lemma openAI_called (be : Backend) (label : string) (req : ChatRequest) (log : list Event) :
  Called be label log
    (finish label (chatOutcome (openAI be req)) (log ++ [OpenAICall req])%list).
Proof.
  destruct (openAI be req) as [cause|r] eqn:E; simpl.
  - rewrite <- app_assoc. apply Faulted; [reflexivity | simpl; now rewrite E].
  - apply Answered; [reflexivity | simpl; now rewrite E].
Qed.

Lemma deepseekAI_called (be : Backend) (label : string) (req : ChatRequest)
  (log : list Event) :
  Called be label log
    (finish label (chatOutcome (deepseekAI be req)) (log ++ [DeepSeekCall req])%list).
Proof.
  destruct (deepseekAI be req) as [cause|r] eqn:E; simpl.
  - rewrite <- app_assoc. apply Faulted; [reflexivity | simpl; now rewrite E].
  - apply Answered; [reflexivity | simpl; now rewrite E].
Qed.

Lemma googleAI_called (be : Backend) (label : string) (req : GenerateContentRequest)
  (log : list Event) :
  Called be label log
    (finish label (streamOutcome (googleAI be req)) (log ++ [GoogleCall req])%list).
Proof.
  destruct (googleAI be req) as [cause|s] eqn:E; simpl.
  - rewrite <- app_assoc. apply Faulted; [reflexivity | simpl; now rewrite E].
  - destruct (fault s) as [cause|] eqn:F; simpl.
    + rewrite <- app_assoc. apply Faulted; [reflexivity | simpl; now rewrite E].
    + apply Answered; [reflexivity | simpl; now rewrite E].
Qed.

Create HintDb called.
#[local] Hint Resolve openAI_called deepseekAI_called googleAI_called : called.

Lemma postApiText_called (be : Backend) (req : TextRequest) (log : list Event) :
  Js.truthy (text req) = true ->
  Called be "Error processing text:" log (postApiText be req log).
Proof.
  intros Ht. rewrite postApiText_eq, Ht. cbn [negb]. cbv zeta.
  destruct (Js.strictEq _ "openai"); [auto with called|].
  destruct (Js.strictEq _ "deepseek"); auto with called.
Qed.

(** ** Validation *)

Lemma truthy_nonempty (t : Js.Value) :
  Js.truthy t = true <-> exists s, t = Js.Str s /\ s <> "".
Proof.
  destruct t as [| |s]; simpl.
  - split; [discriminate | intros (s & E & _); discriminate].
  - split; [discriminate | intros (s & E & _); discriminate].
  - rewrite negb_true_iff, String.eqb_neq. split.
    + intros H. now exists s.
    + intros (s' & [= ->] & H). exact H.
Qed.

Lemma falsy_empty_or_absent (t : Js.Value) :
  Js.truthy t = false <-> t = Js.Str "" \/ t = Js.Null \/ t = Js.Undefined.
Proof.
  destruct t as [| |s]; simpl.
  - split; [auto | reflexivity].
  - split; [auto | reflexivity].
  - rewrite negb_false_iff, String.eqb_eq. split.
    + intros ->. now left.
    + intros [[= ->] | [E | E]]; [reflexivity | discriminate | discriminate].
Qed.

Lemma defaultTo_strictEq (p : Js.Value) (lit : string) :
  (lit =? "google") = false ->
  Js.strictEq (Js.defaultTo p (Js.Str "google")) lit = Js.strictEq p lit.
Proof.
  intros H. destruct p; [|reflexivity|reflexivity].
  unfold Js.defaultTo, Js.strictEq. rewrite String.eqb_sym. exact H.
Qed.

(** The call [/api/text] makes for a non-empty text, and the reply as a
    function of whether that call faults. *)
Lemma postApiText_by_fault (be : Backend) (t p : Js.Value) (log : list Event) :
  Js.truthy t = true ->
  let call :=
    if Js.strictEq p "openai" then OpenAICall (textMessages "gpt-4o" t)
    else if Js.strictEq p "deepseek" then DeepSeekCall (textMessages "deepseek-chat" t)
    else GoogleCall (textContents t) in
  match faultOf be call with
  | None =>
      exists result,
        postApiText be {| text := t; text_provider := p |} log =
        (Returned (success result), (log ++ [call])%list)
  | Some cause =>
      postApiText be {| text := t; text_provider := p |} log =
      (Returned internalServerError,
       (log ++ [call; ConsoleError "Error processing text:" cause])%list)
  end.
Proof.
  intros Ht. cbv zeta. rewrite postApiText_eq. cbn [text text_provider].
  rewrite Ht. cbn [negb]. cbv zeta. rewrite !defaultTo_strictEq by reflexivity.
  destruct (Js.strictEq p "openai").
  { cbn [faultOf]. destruct (openAI be _) as [cause|r]; simpl.
    - now rewrite <- app_assoc.
    - now exists (firstContent r). }
  destruct (Js.strictEq p "deepseek").
  { cbn [faultOf]. destruct (deepseekAI be _) as [cause|r]; simpl.
    - now rewrite <- app_assoc.
    - now exists (firstContent r). }
  cbn [faultOf]. destruct (googleAI be _) as [cause|s]; simpl.
  - now rewrite <- app_assoc.
  - destruct (fault s) as [cause|]; simpl.
    + now rewrite <- app_assoc.
    + now exists (joined (chunks s)).
Qed.

(** C4, amended: whatever the provider and the backend, [/api/text] replies
    with the validation error exactly when the text is the empty string,
    [null] or missing, and then calls no backend; for a non-empty text it
    never replies with the validation error: it calls the backend the
    provider selects, replies 200 with a string under [response] when that
    call does not fault, and replies with the server error, after logging the
    cause, when it does. *)
Theorem text_is_required
  (be : Backend) (t p : Js.Value) (log : list Event) :
  let out := postApiText be {| text := t; text_provider := p |} log in
  (t = Js.Str "" \/ t = Js.Null \/ t = Js.Undefined ->
   out = (Returned (badRequest "Text is required"), log)) /\
  ((exists s, t = Js.Str s /\ s <> "") ->
   exists resp trace,
     out = (Returned resp, (log ++ trace)%list) /\
     status resp <> 400 /\
     ((exists result, resp = success result) \/
      (resp = internalServerError /\
       exists e cause, In e trace /\ faultOf be e = Some cause))) /\
  ((exists message, fst out = Returned (badRequest message)) <->
   (t = Js.Str "" \/ t = Js.Null \/ t = Js.Undefined)) /\
  ((exists s, t = Js.Str s /\ s <> "") ->
   let call :=
     if Js.strictEq p "openai" then
       OpenAICall
         {| chat_model := "gpt-4o"; chat_system := jsonInstruction;
            chat_user := PlainContent t |}
     else if Js.strictEq p "deepseek" then
       DeepSeekCall
         {| chat_model := "deepseek-chat"; chat_system := jsonInstruction;
            chat_user := PlainContent t |}
     else
       GoogleCall
         {| gc_model := "gemini-2.0-flash"; gc_responseMimeType := "application/json";
            gc_parts := [TextPart t] |} in
   (faultOf be call = None ->
    exists result,
      out = (Returned (success result), (log ++ [call])%list) /\
      status (success result) = 200 /\
      response (json (success result)) = Some result) /\
   (forall cause,
      faultOf be call = Some cause ->
      out =
        (Returned internalServerError,
         (log ++ [call; ConsoleError "Error processing text:" cause])%list) /\
      status internalServerError = 500 /\
      response (json internalServerError) = None)).
Proof.
  cbv zeta.
  assert (A : Js.truthy t = false ->
              postApiText be {| text := t; text_provider := p |} log =
              (Returned (badRequest "Text is required"), log)).
  { intros Ht. rewrite postApiText_eq. cbn [text]. now rewrite Ht. }
  assert (B : Js.truthy t = true ->
              exists resp trace,
                postApiText be {| text := t; text_provider := p |} log =
                  (Returned resp, (log ++ trace)%list) /\
                status resp <> 400 /\
                ((exists result, resp = success result) \/
                 (resp = internalServerError /\
                  exists e cause, In e trace /\ faultOf be e = Some cause))).
  { intros Ht.
    destruct (postApiText_called be {| text := t; text_provider := p |} log Ht)
      as [e result _ _ | e cause _ Hf].
    - exists (success result), [e]. repeat split; [discriminate|]. left. now exists result.
    - exists internalServerError, [e; ConsoleError "Error processing text:" cause].
      repeat split; [discriminate|]. right. split; [reflexivity|].
      exists e, cause. split; [now left | exact Hf]. }
  split; [|split; [|split]].
  - intros H. now apply A, falsy_empty_or_absent.
  - intros H. now apply B, truthy_nonempty.
  - rewrite <- falsy_empty_or_absent. split.
    + intros (message & E). destruct (Js.truthy t) eqn:Ht; [|reflexivity]. exfalso.
      destruct (B eq_refl) as (resp & trace & E' & Hs & _).
      rewrite E' in E. simpl in E. injection E as ->. now apply Hs.
    + intros H. rewrite (A H). now exists "Text is required".
  - intros H. apply truthy_nonempty in H.
    pose proof (postApiText_by_fault be t p log H) as F. cbv zeta in F.
    unfold textMessages, textContents in F. split.
    + intros Hn. rewrite Hn in F. destruct F as (result & F).
      exists result. now repeat split.
    + intros cause Hc. rewrite Hc in F. now repeat split.
Qed.

Lemma text_is_required_witness :
  postApiText helloBackend {| text := Js.Str ""; text_provider := Js.Str "openai" |} [] =
    (Returned (badRequest "Text is required"), []) /\
  (exists resp trace,
     postApiText helloBackend {| text := Js.Str "hello"; text_provider := Js.Str "openai" |} [] =
       (Returned resp, ([] ++ trace)%list) /\
     status resp <> 400 /\
     ((exists result, resp = success result) \/
      (resp = internalServerError /\
       exists e cause, In e trace /\ faultOf helloBackend e = Some cause))) /\
  (postApiText (refusing "ECONNREFUSED")
     {| text := Js.Str "hello"; text_provider := Js.Str "openai" |} [] =
     (Returned internalServerError,
      ([] ++
       [OpenAICall
          {| chat_model := "gpt-4o"; chat_system := jsonInstruction;
             chat_user := PlainContent (Js.Str "hello") |};
        ConsoleError "Error processing text:" "ECONNREFUSED"])%list) /\
   status internalServerError = 500 /\
   response (json internalServerError) = None).
Proof.
  split; [|split].
  - apply (proj1 (text_is_required helloBackend (Js.Str "") (Js.Str "openai") [])).
    left. reflexivity.
  - apply (proj1 (proj2 (text_is_required helloBackend (Js.Str "hello") (Js.Str "openai") []))).
    exists "hello". split; [reflexivity | discriminate].
  - apply (proj2 (proj2 (proj2
             (text_is_required (refusing "ECONNREFUSED") (Js.Str "hello")
                (Js.Str "openai") [])))).
    + exists "hello". split; [reflexivity | discriminate].
    + reflexivity.
Defined.

(** At a backend that refuses the call, a non-empty text gets no string: the
    reply is the server error, whose [response] field is missing. *)
Lemma nonempty_text_without_string :
  Js.truthy (Js.Str "hello") = true /\
  run (postApiText (refusing "ECONNREFUSED")
         {| text := Js.Str "hello"; text_provider := Js.Undefined |}) =
    (Returned internalServerError,
     [GoogleCall (textContents (Js.Str "hello"));
      ConsoleError "Error processing text:" "ECONNREFUSED"]) /\
  response (json internalServerError) = None /\
  ~ (exists result,
       fst (run (postApiText (refusing "ECONNREFUSED")
                   {| text := Js.Str "hello"; text_provider := Js.Undefined |})) =
       Returned (success result)).
Proof.
  repeat split. intros (result & E). discriminate E.
Qed.

(** C5: whatever the provider, the question and the backend, [/api/image]
    replies with a validation error, and calls no backend, whenever no file
    was uploaded or the file's MIME type does not start with [image/]. *)
Theorem image_is_required (be : Backend) (req : UploadRequest) (log : list Event) :
  (file req = None \/
   exists f, file req = Some f /\ String.prefix "image/" (mimetype f) = false) ->
  exists message,
    postApiImage be req log = (Returned (badRequest message), log) /\
    status (badRequest message) = 400.
Proof.
  intros [E | (f & E & Hm)]; rewrite postApiImage_eq, E.
  - now exists "Image file is required".
  - rewrite Hm. now exists "File must be an image".
Qed.

Lemma image_is_required_witness :
  exists message,
    postApiImage helloBackend
      {| body := {| question := Js.Str "what?"; provider := Js.Str "deepseek" |};
         file := Some pdf |} [] = (Returned (badRequest message), []) /\
    status (badRequest message) = 400.
Proof.
  apply (image_is_required helloBackend
           {| body := {| question := Js.Str "what?"; provider := Js.Str "deepseek" |};
              file := Some pdf |} []).
  right. exists pdf. split; reflexivity.
Defined.

(** [m.startsWith(p)], as the library's [prefix] computes it. *)
Lemma startsWith_append (p m : string) :
  String.prefix p m = true <-> exists rest, m = p ++ rest.
Proof.
  revert m. induction p as [|a p IH]; intros m; simpl.
  - split; [intros _; now exists m | intros _; now destruct m].
  - destruct m as [|b m]; simpl.
    + split; [discriminate | intros (rest & E); discriminate].
    + destruct (ascii_dec a b) as [->|N].
      * rewrite IH. split; intros (rest & E); exists rest; congruence.
      * split; [discriminate | intros (rest & E); congruence].
Qed.

(** C6: whatever the provider, the question and the backend, [/api/pdf]
    replies with a validation error, and calls no backend, whenever no file
    was uploaded or the file's MIME type is any string other than
    [application/pdf]. *)
Theorem pdf_is_required (be : Backend) (req : UploadRequest) (log : list Event) :
  (file req = None \/
   exists f, file req = Some f /\ mimetype f <> "application/pdf") ->
  exists message,
    postApiPdf be req log = (Returned (badRequest message), log) /\
    status (badRequest message) = 400.
Proof.
  intros [E | (f & E & Hm)]; rewrite postApiPdf_eq, E.
  - now exists "PDF file is required".
  - apply String.eqb_neq in Hm. rewrite Hm. now exists "File must be a PDF".
Qed.

Lemma pdf_is_required_witness :
  exists message,
    postApiPdf helloBackend
      {| body := {| question := Js.Undefined; provider := Js.Str "openai" |};
         file := Some {| mimetype := "application/pdf; charset=binary"; buffer := "%PDF" |} |}
      [] = (Returned (badRequest message), []) /\
    status (badRequest message) = 400.
Proof.
  apply (pdf_is_required helloBackend
           {| body := {| question := Js.Undefined; provider := Js.Str "openai" |};
              file := Some {| mimetype := "application/pdf; charset=binary";
                              buffer := "%PDF" |} |} []).
  right. eexists. split; [reflexivity | discriminate].
Defined.

(** ** Capability gaps *)

Lemma recognized_cases (id : string) :
  recognized id = true -> id = "google" \/ id = "openai" \/ id = "deepseek".
Proof.
  unfold recognized. rewrite !orb_true_iff, !String.eqb_eq. tauto.
Qed.

(** C2: with a file whose MIME type starts with [image/], [/api/image] for
    provider ['deepseek'] calls no backend and logs nothing, and replies on the
    success path (status 200) with the serialized object whose single field
    [error] reads "DeepSeek does not currently support image analysis"; the
    reply is neither the server error nor a validation error. *)
Theorem deepseek_image_capability_gap
  (be : Backend) (q : Js.Value) (f : File) (log : list Event) :
  String.prefix "image/" (mimetype f) = true ->
  let payload :=
    "{" ++ Json.dquote ++ "error" ++ Json.dquote ++ ":" ++
    Json.dquote ++ "DeepSeek does not currently support image analysis" ++ Json.dquote ++
    "}" in
  postApiImage be
    {| body := {| question := q; provider := Js.Str "deepseek" |}; file := Some f |} log =
    (Returned (success payload), log) /\
  payload =
    Json.stringifyField "error" "DeepSeek does not currently support image analysis" /\
  contains "DeepSeek" payload = true /\
  contains "image" payload = true /\
  status (success payload) = 200 /\
  success payload <> internalServerError /\
  (forall message, success payload <> badRequest message).
Proof.
  intros Hm. cbv zeta. rewrite postApiImage_eq. cbn [file body provider]. rewrite Hm.
  repeat split; try reflexivity; discriminate.
Qed.

Lemma deepseek_image_capability_gap_witness :
  postApiImage (refusing "ECONNREFUSED")
    {| body := {| question := Js.Undefined; provider := Js.Str "deepseek" |};
       file := Some png |} [] =
  (Returned
     (success
        ("{" ++ Json.dquote ++ "error" ++ Json.dquote ++ ":" ++
         Json.dquote ++ "DeepSeek does not currently support image analysis" ++
         Json.dquote ++ "}")), []).
Proof.
  exact (proj1 (deepseek_image_capability_gap (refusing "ECONNREFUSED") Js.Undefined png []
                  eq_refl)).
Defined.

(** C3: with a file whose MIME type is [application/pdf], [/api/pdf] for
    provider ['openai'] and for provider ['deepseek'] calls no backend and logs
    nothing, and replies on the success path (status 200) with the serialized
    object whose single field [error] reads "<provider> does not currently
    support PDF analysis", naming that provider and no other. *)
Theorem pdf_capability_gap
  (be : Backend) (id : string) (q : Js.Value) (f : File) (log : list Event) :
  id = "openai" \/ id = "deepseek" ->
  mimetype f = "application/pdf" ->
  let payload :=
    "{" ++ Json.dquote ++ "error" ++ Json.dquote ++ ":" ++
    Json.dquote ++ id ++ " does not currently support PDF analysis" ++ Json.dquote ++
    "}" in
  postApiPdf be
    {| body := {| question := q; provider := Js.Str id |}; file := Some f |} log =
    (Returned (success payload), log) /\
  payload =
    Json.stringifyField "error" (id ++ " does not currently support PDF analysis") /\
  contains id payload = true /\
  contains "PDF" payload = true /\
  (forall other, recognized other = true -> other <> id -> contains other payload = false) /\
  status (success payload) = 200 /\
  success payload <> internalServerError /\
  (forall message, success payload <> badRequest message).
Proof.
  intros Hid Hm. cbv zeta. rewrite postApiPdf_eq. cbn [file body provider].
  rewrite Hm. cbn [String.eqb Ascii.eqb Bool.eqb negb].
  destruct Hid as [-> | ->].
  - repeat split; try reflexivity; try discriminate.
    intros other Ho Hn.
    destruct (recognized_cases other Ho) as [-> | [-> | ->]];
      [reflexivity | contradiction | reflexivity].
  - repeat split; try reflexivity; try discriminate.
    intros other Ho Hn.
    destruct (recognized_cases other Ho) as [-> | [-> | ->]];
      [reflexivity | reflexivity | contradiction].
Qed.

Lemma pdf_capability_gap_witness :
  postApiPdf (refusing "ECONNREFUSED")
    {| body := {| question := Js.Undefined; provider := Js.Str "openai" |};
       file := Some pdf |} [] =
  (Returned
     (success
        ("{" ++ Json.dquote ++ "error" ++ Json.dquote ++ ":" ++
         Json.dquote ++ "openai" ++ " does not currently support PDF analysis" ++
         Json.dquote ++ "}")), []).
Proof.
  exact (proj1 (pdf_capability_gap (refusing "ECONNREFUSED") "openai" Js.Undefined pdf []
                  (or_introl eq_refl) eq_refl)).
Defined.

(** ** Streamed answers *)

Lemma concat_length (texts : list string) :
  String.length (String.concat "" texts) = list_sum (map String.length texts).
Proof.
  induction texts as [|x xs IH]; [reflexivity|].
  rewrite concat_cons, length_append, IH. reflexivity.
Qed.

Lemma concat_app (xs ys : list string) :
  String.concat "" (xs ++ ys) = String.concat "" xs ++ String.concat "" ys.
Proof.
  induction xs as [|x xs IH]; [reflexivity|].
  rewrite <- app_comm_cons, !concat_cons, IH. now rewrite append_assoc.
Qed.

Lemma forAwait_fragments (texts : list string) (ending : option Cause) (result : string)
  (log : list Event) :
  forAwait (fragments texts) ending result log =
  (match ending with
   | Some cause => Thrown cause
   | None => Returned (result ++ String.concat "" texts)
   end, log).
Proof. now rewrite forAwait_eq, joined_fragments. Qed.

(** C7: when the Google backend answers with a stream that yields the
    fragments [texts] in order and ends, each of the three places that drain
    it (the text adapter, the image adapter, the loop inside [/api/pdf])
    returns exactly their concatenation in delivery order, whose length is the
    sum of the fragments' lengths; the loop reads to the end of the stream
    before anything is returned: if the same fragments are followed by a fault
    instead of the end, the loop throws that fault and returns nothing. *)
Theorem streamed_fragments_are_concatenated
  (be : Backend) (texts : list string) (t q p : Js.Value) (d m : string) (f : File)
  (log : list Event) :
  (forall req, googleAI be req = inr (delivers texts)) ->
  mimetype f = "application/pdf" ->
  selectsGoogle p = true ->
  accumulate (delivers texts) log = (Returned (String.concat "" texts), log) /\
  processTextWithGoogle be t log =
    (Returned (String.concat "" texts), (log ++ [GoogleCall (textContents t)])%list) /\
  processImageWithGoogle be d m q log =
    (Returned (String.concat "" texts), (log ++ [GoogleCall (inlineContents d m q)])%list) /\
  postApiPdf be {| body := {| question := q; provider := p |}; file := Some f |} log =
    (Returned (success (String.concat "" texts)),
     (log ++
      [GoogleCall
         (inlineContents (Base64.encode (buffer f)) "application/pdf"
            (Js.orElse q (Js.Str defaultPdfQuestion)))])%list) /\
  String.length (String.concat "" texts) = list_sum (map String.length texts) /\
  (forall cause,
     accumulate {| chunks := fragments texts; fault := Some cause |} log =
     (Thrown cause, log)).
Proof.
  intros Hbe Hm Hp.
  assert (A : forall ending,
             accumulate {| chunks := fragments texts; fault := ending |} log =
             (match ending with
              | Some cause => Thrown cause
              | None => Returned (String.concat "" texts)
              end, log)).
  { intros ending. unfold accumulate. cbn [chunks fault]. now rewrite forAwait_fragments. }
  assert (S : forall req, streamOutcome (googleAI be req) = Returned (String.concat "" texts)).
  { intros req. rewrite Hbe. unfold streamOutcome, delivers. cbn [fault chunks].
    now rewrite joined_fragments. }
  split; [exact (A None)|].
  split; [now rewrite processTextWithGoogle_eq, S|].
  split; [now rewrite processImageWithGoogle_eq, S|].
  split.
  - rewrite postApiPdf_eq. cbn [file body provider question]. rewrite Hm. cbn [negb].
    rewrite String.eqb_refl. cbn [negb]. cbv zeta.
    unfold selectsGoogle in Hp. apply negb_true_iff in Hp.
    rewrite !defaultTo_strictEq by reflexivity. rewrite Hp, S. reflexivity.
  - split; [apply concat_length|]. intros cause. exact (A (Some cause)).
Qed.

Lemma streamed_fragments_are_concatenated_witness :
  processTextWithGoogle helloBackend (Js.Str "hi") [] =
  (Returned "Hello", [GoogleCall (textContents (Js.Str "hi"))]).
Proof.
  exact (proj1 (proj2
    (streamed_fragments_are_concatenated helloBackend ["Hel"; "lo"]
       (Js.Str "hi") Js.Undefined Js.Undefined "TWFu" "image/png" pdf []
       (fun _ => eq_refl) eq_refl eq_refl))).
Defined.

(** Each turn of the loop appends one chunk at the end of what was
    accumulated so far; a chunk without text appends the word a missing value
    converts to. *)
Lemma forAwait_step (chunk : Chunk) (rest : list Chunk) (ending : option Cause)
  (result : string) :
  forAwait (chunk :: rest) ending result =
  forAwait rest ending (result ++ Js.toString (chunk_text chunk)).
Proof. reflexivity. Qed.

Lemma accumulate_split (xs ys : list string) (log : list Event) :
  accumulate (delivers (xs ++ ys)) log =
  (Returned (String.concat "" xs ++ String.concat "" ys), log).
Proof.
  unfold accumulate, delivers. cbn [chunks fault].
  now rewrite forAwait_fragments, concat_app.
Qed.

(** ** Every run of a handler *)

Lemma postApiImage_adapter (be : Backend) (req : UploadRequest) (f : File)
  (log : list Event) :
  file req = Some f ->
  String.prefix "image/" (mimetype f) = true ->
  postApiImage be req log =
  answering "Error processing image:"
    (imageAdapter (Js.defaultTo (provider (body req)) (Js.Str "google")) be
       (Base64.encode (buffer f)) (mimetype f)
       (Js.orElse (question (body req)) (Js.Str defaultImageQuestion))) log.
Proof.
  intros Hf Hm. unfold postApiImage, answering, imageAdapter. rewrite Hf, Hm. cbv zeta.
  cbn [negb].
  destruct (Js.strictEq _ "openai"); [reflexivity|].
  destruct (Js.strictEq _ "deepseek"); reflexivity.
Qed.

Lemma dispatch_ran (be : Backend) (r : Route) (log : list Event) :
  Ran be (routeLabel r) log (dispatch be r log).
Proof.
  destruct r as [req|req|req]; cbn [dispatch routeLabel].
  - destruct (Js.truthy (text req)) eqn:Ht.
    + apply Reached, postApiText_called, Ht.
    + rewrite postApiText_eq, Ht. apply Rejected.
  - rewrite postApiImage_eq. destruct (file req) as [f|]; [|apply Rejected].
    destruct (negb _); [apply Rejected|]. cbv zeta.
    destruct (Js.strictEq _ "openai"); [apply Reached; auto with called|].
    destruct (Js.strictEq _ "deepseek"); [apply Unsupported|].
    apply Reached; auto with called.
  - rewrite postApiPdf_eq. destruct (file req) as [f|]; [|apply Rejected].
    destruct (negb _); [apply Rejected|]. cbv zeta.
    destruct (_ || _); [apply Unsupported|].
    apply Reached; auto with called.
Qed.

(** A handler always replies: nothing escapes its [try]. *)
Lemma dispatch_returns (be : Backend) (r : Route) (log : list Event) :
  exists resp trace, dispatch be r log = (Returned resp, (log ++ trace)%list).
Proof.
  destruct (dispatch_ran be r log) as [message | payload | out [e result _ _ | e cause _ _]].
  - exists (badRequest message), []. now rewrite app_nil_r.
  - exists (success payload), []. now rewrite app_nil_r.
  - now exists (success result), [e].
  - now exists internalServerError, [e; ConsoleError (routeLabel r) cause].
Qed.

(** ** Upstream faults *)

(** C9: in each of the three dispatch operations, when a backend call the
    handler made faults (the call is rejected, or the stream it resolved to
    breaks off), the handler logs the cause with [console.error] and replies
    with status 500 and the fixed body [{ error: 'Internal server error' }],
    which is the same for every cause and is not a validation error. *)
Theorem backend_fault_is_server_error
  (be : Backend) (r : Route) (out : Outcome HttpResponse) (trace : list Event)
  (e : Event) (cause : Cause) :
  run (dispatch be r) = (out, trace) ->
  In e trace ->
  faultOf be e = Some cause ->
  out = Returned internalServerError /\
  trace = [e; ConsoleError (routeLabel r) cause] /\
  status internalServerError = 500 /\
  json internalServerError = {| response := None; error := Some "Internal server error" |} /\
  (forall message, internalServerError <> badRequest message).
Proof.
  unfold run. intros E Hin Hf.
  assert (Tail : forall message : string, internalServerError <> badRequest message)
    by (intros message; discriminate).
  pose proof (dispatch_ran be r []) as R. rewrite E in R.
  inversion R as [message | payload | out' C]; subst.
  - contradiction.
  - contradiction.
  - inversion C as [e0 result _ Hnone | e0 cause0 _ Hsome]; subst; simpl in Hin.
    + destruct Hin as [<- | []]. congruence.
    + destruct Hin as [<- | [<- | []]].
      * rewrite Hsome in Hf. injection Hf as ->. repeat split; auto.
      * discriminate Hf.
Qed.

Lemma backend_fault_is_server_error_witness :
  Returned internalServerError = Returned internalServerError /\
  [GoogleCall (textContents (Js.Str "x")); ConsoleError "Error processing text:" "boom"] =
  [GoogleCall (textContents (Js.Str "x"));
   ConsoleError (routeLabel (TextRoute {| text := Js.Str "x"; text_provider := Js.Null |}))
     "boom"] /\
  status internalServerError = 500 /\
  json internalServerError = {| response := None; error := Some "Internal server error" |} /\
  (forall message, internalServerError <> badRequest message).
Proof.
  apply (backend_fault_is_server_error (breaking "boom")
           (TextRoute {| text := Js.Str "x"; text_provider := Js.Null |})
           (Returned internalServerError)
           [GoogleCall (textContents (Js.Str "x"));
            ConsoleError "Error processing text:" "boom"]
           (GoogleCall (textContents (Js.Str "x"))) "boom").
  - reflexivity.
  - left. reflexivity.
  - reflexivity.
Defined.

(** The server error is sent only after a backend call faulted. *)
Lemma server_error_only_on_fault (be : Backend) (r : Route) (trace : list Event) :
  run (dispatch be r) = (Returned internalServerError, trace) ->
  exists e cause, In e trace /\ isBackendCall e = true /\ faultOf be e = Some cause.
Proof.
  unfold run. intros E. pose proof (dispatch_ran be r []) as R. rewrite E in R.
  inversion R as [message | payload | out' C]; subst.
  inversion C as [e0 result _ Hnone | e0 cause0 Hcall Hsome]; subst.
  exists e0, cause0. split; [now left | now split].
Qed.

(** ** The question *)

Lemma promptsSent_finish (label : string) (o : Outcome string) (e : Event) :
  promptsSent (snd (finish label o [e])) = promptsOf e.
Proof.
  destruct o; simpl; now rewrite app_nil_r.
Qed.

Lemma finish_calls (label : string) (o : Outcome string) (e : Event) :
  isBackendCall e = true ->
  filter isBackendCall (snd (finish label o [e])) = [e].
Proof.
  intros Hc. destruct o; simpl; now rewrite Hc.
Qed.

(** The prompts [/api/image] sends to a backend: none when the input is
    rejected or the provider is ['deepseek'], otherwise the question or its
    default. *)
Lemma postApiImage_prompts (be : Backend) (req : UploadRequest) :
  promptsSent (snd (run (postApiImage be req))) =
  match file req with
  | None => []
  | Some f =>
      if negb (String.prefix "image/" (mimetype f)) then []
      else if Js.strictEq (provider (body req)) "openai"
      then [Js.orElse (question (body req)) (Js.Str defaultImageQuestion)]
      else if Js.strictEq (provider (body req)) "deepseek" then []
      else [Js.orElse (question (body req)) (Js.Str defaultImageQuestion)]
  end.
Proof.
  unfold run. rewrite postApiImage_eq. destruct (file req) as [f|]; [|reflexivity].
  destruct (negb _); [reflexivity|]. cbv zeta. cbn [app].
  rewrite !defaultTo_strictEq by reflexivity.
  destruct (Js.strictEq _ "openai"); [now rewrite promptsSent_finish|].
  destruct (Js.strictEq _ "deepseek"); [reflexivity|].
  now rewrite promptsSent_finish.
Qed.

(** The prompts [/api/pdf] sends to a backend: none when the input is rejected
    or the provider is ['openai'] or ['deepseek'], otherwise the question or
    its default. *)
Lemma postApiPdf_prompts (be : Backend) (req : UploadRequest) :
  promptsSent (snd (run (postApiPdf be req))) =
  match file req with
  | None => []
  | Some f =>
      if negb (mimetype f =? "application/pdf") then []
      else if selectsGoogle (provider (body req))
      then [Js.orElse (question (body req)) (Js.Str defaultPdfQuestion)]
      else []
  end.
Proof.
  unfold run. rewrite postApiPdf_eq. destruct (file req) as [f|]; [|reflexivity].
  destruct (negb _); [reflexivity|]. cbv zeta. cbn [app].
  rewrite !defaultTo_strictEq by reflexivity. unfold selectsGoogle.
  destruct (_ || _); [reflexivity|]. cbn [negb].
  now rewrite promptsSent_finish.
Qed.

(** A question supplied as the empty string is not the prompt that is sent:
    the default goes out in its place. *)
Lemma supplied_empty_question_is_replaced :
  promptsSent
    (snd (run (postApiImage helloBackend
                 {| body := {| question := Js.Str ""; provider := Js.Undefined |};
                    file := Some png |}))) =
    [Js.Str "What are you seeing in this picture?"] /\
  promptsSent
    (snd (run (postApiPdf helloBackend
                 {| body := {| question := Js.Str ""; provider := Js.Undefined |};
                    file := Some pdf |}))) =
    [Js.Str "What are you seeing in this PDF?"] /\
  Js.Str "What are you seeing in this picture?" <> Js.Str "" /\
  Js.Str "What are you seeing in this PDF?" <> Js.Str "".
Proof.
  repeat split; discriminate.
Qed.

(** C8, amended: with a valid upload, the prompt handed to the image adapter,
    and the prompt in every backend request of [/api/image] and [/api/pdf],
    is the fixed default of the modality when the question is missing, and is
    the question itself when a non-empty question is supplied. *)
Theorem question_or_default
  (be : Backend) (q p : Js.Value) (image document : File) (log : list Event) :
  (q = Js.Undefined \/ exists s, q = Js.Str s /\ s <> "") ->
  String.prefix "image/" (mimetype image) = true ->
  mimetype document = "application/pdf" ->
  let imagePrompt :=
    match q with
    | Js.Undefined => Js.Str "What are you seeing in this picture?"
    | _ => q
    end in
  let pdfPrompt :=
    match q with
    | Js.Undefined => Js.Str "What are you seeing in this PDF?"
    | _ => q
    end in
  let imageReq := {| body := {| question := q; provider := p |}; file := Some image |} in
  let pdfReq := {| body := {| question := q; provider := p |}; file := Some document |} in
  postApiImage be imageReq log =
    answering "Error processing image:"
      (imageAdapter (Js.defaultTo p (Js.Str "google")) be
         (Base64.encode (buffer image)) (mimetype image) imagePrompt) log /\
  promptsSent (snd (run (postApiImage be imageReq))) =
    (if Js.strictEq p "deepseek" then [] else [imagePrompt]) /\
  promptsSent (snd (run (postApiPdf be pdfReq))) =
    (if selectsGoogle p then [pdfPrompt] else []).
Proof.
  intros Hq Hi Hd. cbv zeta.
  assert (Q : forall d, Js.orElse q (Js.Str d) = match q with Js.Undefined => Js.Str d | _ => q end).
  { intros d. destruct Hq as [-> | (s & -> & Hs)]; [reflexivity|].
    unfold Js.orElse. cbn [Js.truthy]. apply String.eqb_neq in Hs. now rewrite Hs. }
  split; [|split].
  - rewrite (postApiImage_adapter be
               {| body := {| question := q; provider := p |}; file := Some image |}
               image log eq_refl Hi).
    cbn [body provider question]. now rewrite Q.
  - rewrite postApiImage_prompts. cbn [file body provider question]. rewrite Hi. cbn [negb].
    rewrite Q. unfold defaultImageQuestion.
    destruct (Js.strictEq p "openai") eqn:Ho; [|reflexivity].
    destruct p as [| |s]; try discriminate Ho. cbn [Js.strictEq] in *.
    apply String.eqb_eq in Ho. now subst s.
  - rewrite postApiPdf_prompts. cbn [file body provider question]. rewrite Hd.
    rewrite String.eqb_refl. cbn [negb]. now rewrite Q.
Qed.

Lemma question_or_default_witness :
  promptsSent
    (snd (run (postApiImage helloBackend
                 {| body := {| question := Js.Undefined; provider := Js.Str "openai" |};
                    file := Some png |}))) =
  (if Js.strictEq (Js.Str "openai") "deepseek" then []
   else [Js.Str "What are you seeing in this picture?"]).
Proof.
  exact (proj1 (proj2
    (question_or_default helloBackend Js.Undefined (Js.Str "openai") png pdf []
       (or_introl eq_refl) eq_refl eq_refl))).
Defined.

Lemma orElse_truthy (q : Js.Value) (d : string) :
  (d =? "") = false -> Js.truthy (Js.orElse q (Js.Str d)) = true.
Proof.
  intros Hd. unfold Js.orElse. destruct (Js.truthy q) eqn:Hq; [exact Hq|].
  cbn [Js.truthy]. now rewrite Hd.
Qed.

(** C10: in [/api/image] and [/api/pdf] a question that is the empty string
    gives exactly the run a missing question gives, for every provider, file
    and backend.  With a valid upload, the prompt handed to the image adapter
    and the prompt in the backend request for an empty question is the
    modality's default, "What are you seeing in this picture?" for an image
    and "What are you seeing in this PDF?" for a document.  Whatever the
    request, every prompt these handlers send to a backend is a non-empty
    string. *)
Theorem empty_question_is_missing_question
  (be : Backend) (p : Js.Value) (upload : option File) (req : UploadRequest)
  (log : list Event) :
  let empty := {| body := {| question := Js.Str ""; provider := p |}; file := upload |} in
  let missing := {| body := {| question := Js.Undefined; provider := p |}; file := upload |} in
  postApiImage be empty log = postApiImage be missing log /\
  postApiPdf be empty log = postApiPdf be missing log /\
  Js.orElse (Js.Str "") (Js.Str defaultImageQuestion) = Js.Str defaultImageQuestion /\
  Js.orElse (Js.Str "") (Js.Str defaultPdfQuestion) = Js.Str defaultPdfQuestion /\
  Forall (fun prompt => exists s, prompt = Js.Str s /\ s <> "")
    (promptsSent (snd (run (postApiImage be req)))) /\
  Forall (fun prompt => exists s, prompt = Js.Str s /\ s <> "")
    (promptsSent (snd (run (postApiPdf be req)))) /\
  (forall f,
     upload = Some f ->
     String.prefix "image/" (mimetype f) = true ->
     postApiImage be empty log =
       answering "Error processing image:"
         (imageAdapter (Js.defaultTo p (Js.Str "google")) be
            (Base64.encode (buffer f)) (mimetype f)
            (Js.Str "What are you seeing in this picture?")) log /\
     promptsSent (snd (run (postApiImage be empty))) =
       (if Js.strictEq p "deepseek" then []
        else [Js.Str "What are you seeing in this picture?"])) /\
  (forall f,
     upload = Some f ->
     mimetype f = "application/pdf" ->
     filter isBackendCall (snd (run (postApiPdf be empty))) =
       (if selectsGoogle p then
          [GoogleCall
             {| gc_model := "gemini-2.0-flash"; gc_responseMimeType := "application/json";
                gc_parts :=
                  [InlineData (Base64.encode (buffer f)) "application/pdf";
                   TextPart (Js.Str "What are you seeing in this PDF?")] |}]
        else []) /\
     promptsSent (snd (run (postApiPdf be empty))) =
       (if selectsGoogle p then [Js.Str "What are you seeing in this PDF?"] else [])).
Proof.
  cbv zeta.
  split; [now rewrite !postApiImage_eq|].
  split; [now rewrite !postApiPdf_eq|].
  split; [reflexivity|]. split; [reflexivity|].
  split; [|split; [|split]]; cycle 2.
  - intros f -> Hm. split.
    + now rewrite (postApiImage_adapter be
                     {| body := {| question := Js.Str ""; provider := p |}; file := Some f |}
                     f log eq_refl Hm).
    + rewrite postApiImage_prompts. cbn [file body provider question]. rewrite Hm.
      cbn [negb].
      change (Js.orElse (Js.Str "") (Js.Str defaultImageQuestion))
        with (Js.Str "What are you seeing in this picture?").
      destruct (Js.strictEq p "openai") eqn:Ho; [|reflexivity].
      destruct p as [| |s]; try discriminate Ho. cbn [Js.strictEq] in *.
      apply String.eqb_eq in Ho. now subst s.
  - intros f -> Hm. split.
    + unfold run. rewrite postApiPdf_eq. cbn [file body provider question].
      rewrite Hm, String.eqb_refl. cbn [negb app]. cbv zeta.
      rewrite !defaultTo_strictEq by reflexivity. unfold selectsGoogle.
      destruct (Js.strictEq p "openai" || Js.strictEq p "deepseek"); [reflexivity|].
      cbn [negb]. now apply finish_calls.
    + rewrite postApiPdf_prompts. cbn [file body provider question].
      now rewrite Hm, String.eqb_refl.
  - rewrite postApiImage_prompts. destruct (file req) as [f|]; [|constructor].
    destruct (negb _); [constructor|].
    assert (T := orElse_truthy (question (body req)) defaultImageQuestion eq_refl).
    apply truthy_nonempty in T.
    destruct (Js.strictEq _ "openai"); [now repeat constructor|].
    destruct (Js.strictEq _ "deepseek"); now repeat constructor.
  - rewrite postApiPdf_prompts. destruct (file req) as [f|]; [|constructor].
    destruct (negb _); [constructor|].
    assert (T := orElse_truthy (question (body req)) defaultPdfQuestion eq_refl).
    apply truthy_nonempty in T.
    destruct (selectsGoogle _); now repeat constructor.
Qed.

Lemma empty_question_is_missing_question_witness :
  promptsSent
    (snd (run (postApiImage helloBackend
                 {| body := {| question := Js.Str ""; provider := Js.Str "openai" |};
                    file := Some png |}))) =
  (if Js.strictEq (Js.Str "openai") "deepseek" then []
   else [Js.Str "What are you seeing in this picture?"]).
Proof.
  exact (proj2 (proj1 (proj2 (proj2 (proj2 (proj2 (proj2 (proj2
    (empty_question_is_missing_question helloBackend (Js.Str "openai") (Some png)
       {| body := {| question := Js.Undefined; provider := Js.Undefined |}; file := None |}
       []))))))) png eq_refl eq_refl)).
Defined.

(** * Further properties of the handlers *)

(** ** The shape of every run *)

Lemma run_cases (be : Backend) (r : Route) :
  (exists message, run (dispatch be r) = (Returned (badRequest message), [])) \/
  (exists payload, run (dispatch be r) = (Returned (success payload), [])) \/
  (exists e result,
     isBackendCall e = true /\ faultOf be e = None /\
     run (dispatch be r) = (Returned (success result), [e])) \/
  (exists e cause,
     isBackendCall e = true /\ faultOf be e = Some cause /\
     run (dispatch be r) =
       (Returned internalServerError, [e; ConsoleError (routeLabel r) cause])).
Proof.
  unfold run.
  destruct (dispatch_ran be r []) as [message | payload | out [e result Hc Hf | e cause Hc Hf]].
  - left. now exists message.
  - right; left. now exists payload.
  - right; right; left. now exists e, result.
  - right; right; right. now exists e, cause.
Qed.

(** X1: every request to the three routes gets a reply, whatever the backend
    does; its status is 200, 400 or 500; it carries [response] exactly when
    the status is 200 and [error] exactly when it is not, never both. *)
Theorem reply_is_well_formed (be : Backend) (r : Route) :
  exists resp trace,
    run (dispatch be r) = (Returned resp, trace) /\
    (status resp = 200 \/ status resp = 400 \/ status resp = 500) /\
    (status resp = 200 <-> exists s, response (json resp) = Some s) /\
    (status resp <> 200 <-> exists s, error (json resp) = Some s) /\
    (response (json resp) = None \/ error (json resp) = None).
Proof.
  assert (S : forall payload,
             (status (success payload) = 200 \/ status (success payload) = 400 \/
              status (success payload) = 500) /\
             (status (success payload) = 200 <->
              exists s, response (json (success payload)) = Some s) /\
             (status (success payload) <> 200 <->
              exists s, error (json (success payload)) = Some s) /\
             (response (json (success payload)) = None \/
              error (json (success payload)) = None)).
  { intros payload. simpl. repeat split; auto.
    - intros _. now exists payload.
    - intros H. now contradiction H.
    - intros (s & E). discriminate E. }
  destruct (run_cases be r)
    as [(message & E) | [(payload & E) | [(e & result & _ & _ & E) | (e & cause & _ & _ & E)]]];
    rewrite E.
  - exists (badRequest message), []. simpl. repeat split; auto; try discriminate.
    + intros (s & F). discriminate F.
    + intros _. now exists message.
  - exists (success payload), []. split; [reflexivity | apply S].
  - exists (success result), [e]. split; [reflexivity | apply S].
  - exists internalServerError, [e; ConsoleError (routeLabel r) cause]. simpl.
    repeat split; auto; try discriminate.
    + intros (s & F). discriminate F.
    + intros _. now exists "Internal server error".
Qed.

(** X2: a request makes at most one backend call: none when it is
    rejected with a 400, and exactly one when the reply is a 500, so that a
    call that faulted is not tried again. *)
Theorem at_most_one_backend_call (be : Backend) (r : Route) :
  exists resp trace,
    run (dispatch be r) = (Returned resp, trace) /\
    length (filter isBackendCall trace) <= 1 /\
    (status resp = 400 -> trace = []) /\
    (status resp = 500 -> length (filter isBackendCall trace) = 1).
Proof.
  destruct (run_cases be r)
    as [(message & E) | [(payload & E) | [(e & result & Hc & _ & E) | (e & cause & Hc & _ & E)]]];
    rewrite E.
  - exists (badRequest message), []. simpl. repeat split; auto; discriminate.
  - exists (success payload), []. simpl. repeat split; auto; discriminate.
  - exists (success result), [e]. simpl. rewrite Hc. simpl.
    repeat split; auto; discriminate.
  - exists internalServerError, [e; ConsoleError (routeLabel r) cause]. simpl. rewrite Hc.
    simpl. repeat split; auto; discriminate.
Qed.

(** X3: [console.error] is written exactly when the reply is a 500: then it
    is the last thing the handler does, once, with the route's own prefix and
    the cause of the fault; replies with status 200 or 400 log nothing. *)
Theorem error_is_logged_exactly_on_500 (be : Backend) (r : Route) :
  exists resp trace,
    run (dispatch be r) = (Returned resp, trace) /\
    (status resp = 500 <->
     exists e cause,
       isBackendCall e = true /\ faultOf be e = Some cause /\
       trace = [e; ConsoleError (routeLabel r) cause]) /\
    (status resp <> 500 -> forall label cause, ~ In (ConsoleError label cause) trace).
Proof.
  destruct (run_cases be r)
    as [(message & E) | [(payload & E) | [(e & result & Hc & _ & E) | (e & cause & Hc & Hf & E)]]];
    rewrite E.
  - exists (badRequest message), []. simpl. repeat split; auto.
    + discriminate.
    + intros (e & cause & _ & _ & F). discriminate F.
  - exists (success payload), []. simpl. repeat split; auto.
    + discriminate.
    + intros (e & cause & _ & _ & F). discriminate F.
  - exists (success result), [e]. simpl. repeat split.
    + discriminate.
    + intros (e' & cause & _ & _ & F). discriminate F.
    + intros _ label cause [-> | []]. discriminate Hc.
  - exists internalServerError, [e; ConsoleError (routeLabel r) cause]. simpl. repeat split.
    + intros _. now exists e, cause.
    + intros H. now contradiction H.
Qed.

(** ** Which backend is called, and with what *)

Lemma finish_in (label : string) (o : Outcome string) (e e' : Event) :
  In e' (snd (finish label o [e])) ->
  e' = e \/ exists cause, e' = ConsoleError label cause.
Proof.
  destruct o as [result|cause]; simpl.
  - intros [<- | []]. now left.
  - intros [<- | [<- | []]]; [now left | right; now exists cause].
Qed.

(** X4: for a non-empty text, [/api/text] calls exactly one backend, the one
    the provider names: ['openai'] goes to OpenAI with model [gpt-4o],
    ['deepseek'] to DeepSeek with model [deepseek-chat], both with the JSON
    instruction as system message and the text as the user message; anything
    else goes to Google with model [gemini-2.0-flash].  The text is sent as it
    came, untrimmed. *)
Theorem text_goes_to_the_named_backend (be : Backend) (t p : Js.Value) :
  Js.truthy t = true ->
  let trace := snd (run (postApiText be {| text := t; text_provider := p |})) in
  filter isBackendCall trace =
    [if Js.strictEq p "openai" then
       OpenAICall
         {| chat_model := "gpt-4o"; chat_system := jsonInstruction;
            chat_user := PlainContent t |}
     else if Js.strictEq p "deepseek" then
       DeepSeekCall
         {| chat_model := "deepseek-chat"; chat_system := jsonInstruction;
            chat_user := PlainContent t |}
     else
       GoogleCall
         {| gc_model := "gemini-2.0-flash"; gc_responseMimeType := "application/json";
            gc_parts := [TextPart t] |}] /\
  promptsSent trace = [t].
Proof.
  intros Ht. cbv zeta. unfold run. rewrite postApiText_eq. cbn [text text_provider].
  rewrite Ht. cbn [negb app]. cbv zeta.
  rewrite !defaultTo_strictEq by reflexivity.
  destruct (Js.strictEq p "openai").
  { split; [now apply finish_calls | now rewrite promptsSent_finish]. }
  destruct (Js.strictEq p "deepseek").
  { split; [now apply finish_calls | now rewrite promptsSent_finish]. }
  split; [now apply finish_calls | now rewrite promptsSent_finish].
Qed.

Lemma text_goes_to_the_named_backend_witness :
  promptsSent
    (snd (run (postApiText helloBackend
                 {| text := Js.Str "  "; text_provider := Js.Str "deepseek" |}))) =
  [Js.Str "  "].
Proof.
  exact (proj2 (text_goes_to_the_named_backend helloBackend (Js.Str "  ")
                  (Js.Str "deepseek") eq_refl)).
Defined.

(** X5: whatever the route and the request, a call to Google names model
    [gemini-2.0-flash] and asks for [application/json]; a call to OpenAI names
    [gpt-4o], carries the JSON instruction and is never made by [/api/pdf]; a
    call to DeepSeek names [deepseek-chat], carries the JSON instruction and
    plain text only, and is made by [/api/text] alone. *)
Theorem calls_are_addressed_by_backend (be : Backend) (r : Route) (e : Event) :
  In e (snd (run (dispatch be r))) ->
  match e with
  | GoogleCall req =>
      gc_model req = "gemini-2.0-flash" /\ gc_responseMimeType req = "application/json"
  | OpenAICall req =>
      chat_model req = "gpt-4o" /\ chat_system req = jsonInstruction /\
      (forall upload, r <> PdfRoute upload)
  | DeepSeekCall req =>
      chat_model req = "deepseek-chat" /\ chat_system req = jsonInstruction /\
      (exists t, chat_user req = PlainContent t) /\
      (exists body, r = TextRoute body)
  | ConsoleError label _ => label = routeLabel r
  end.
Proof.
  unfold run. destruct r as [req|req|req]; cbn [dispatch routeLabel].
  - rewrite postApiText_eq. destruct (negb _); [intros []|]. cbv zeta. cbn [app].
    destruct (Js.strictEq _ "openai").
    { intros H. apply finish_in in H as [-> | (cause & ->)]; [|reflexivity].
      repeat split. intros upload. discriminate. }
    destruct (Js.strictEq _ "deepseek").
    { intros H. apply finish_in in H as [-> | (cause & ->)]; [|reflexivity].
      repeat split; [now exists (text req) | now exists req]. }
    intros H. apply finish_in in H as [-> | (cause & ->)]; [|reflexivity].
    now split.
  - rewrite postApiImage_eq. destruct (file req) as [f|]; [|intros []].
    destruct (negb _); [intros []|]. cbv zeta. cbn [app].
    destruct (Js.strictEq _ "openai").
    { intros H. apply finish_in in H as [-> | (cause & ->)]; [|reflexivity].
      repeat split. intros upload. discriminate. }
    destruct (Js.strictEq _ "deepseek"); [intros []|].
    intros H. apply finish_in in H as [-> | (cause & ->)]; [|reflexivity].
    now split.
  - rewrite postApiPdf_eq. destruct (file req) as [f|]; [|intros []].
    destruct (negb _); [intros []|]. cbv zeta. cbn [app].
    destruct (_ || _); [intros []|].
    intros H. apply finish_in in H as [-> | (cause & ->)]; [|reflexivity].
    now split.
Qed.

Lemma calls_are_addressed_by_backend_witness :
  chat_model (imageMessages (Base64.encode (buffer png)) (mimetype png)
                (Js.Str defaultImageQuestion)) = "gpt-4o" /\
  chat_system (imageMessages (Base64.encode (buffer png)) (mimetype png)
                 (Js.Str defaultImageQuestion)) = jsonInstruction /\
  (forall upload,
     ImageRoute {| body := {| question := Js.Undefined; provider := Js.Str "openai" |};
                   file := Some png |} <> PdfRoute upload).
Proof.
  apply (calls_are_addressed_by_backend helloBackend
           (ImageRoute {| body := {| question := Js.Undefined; provider := Js.Str "openai" |};
                          file := Some png |})
           (OpenAICall (imageMessages (Base64.encode (buffer png)) (mimetype png)
                          (Js.Str defaultImageQuestion)))).
  left. reflexivity.
Defined.

(** ** What an adapter makes of the backend's answer *)

(** X6: the OpenAI text adapter reads the first choice only (the DeepSeek
    and the image adapter use the same expression).  A completion with no
    choices, a first choice without message, or a first message whose content
    is [null] or empty gives the empty string, and [/api/text] then replies
    200 with an empty [response], not an error; otherwise the reply carries
    the first choice's content unchanged, whatever further choices follow. *)
Theorem chat_reply_is_first_choice
  (be : Backend) (t : Js.Value) (completion : ChatCompletion) :
  Js.truthy t = true ->
  openAI be (textMessages "gpt-4o" t) = inr completion ->
  let reply :=
    match choices completion with
    | {| message := Some {| content := Js.Str s |} |} :: _ => s
    | _ => ""
    end in
  run (postApiText be {| text := t; text_provider := Js.Str "openai" |}) =
    (Returned (success reply), [OpenAICall (textMessages "gpt-4o" t)]) /\
  run (processTextWithOpenAI be t) = (Returned reply, [OpenAICall (textMessages "gpt-4o" t)]) /\
  firstContent completion = reply.
Proof.
  intros Ht Hbe. cbv zeta.
  assert (F : firstContent completion =
              match choices completion with
              | {| message := Some {| content := Js.Str s |} |} :: _ => s
              | _ => ""
              end).
  { unfold firstContent. destruct (choices completion) as [|[m] rest]; [reflexivity|].
    destruct m as [[c]|]; [|reflexivity]. destruct c as [| |s]; try reflexivity.
    unfold Js.orEmpty, Js.orElse. cbn [Js.truthy content message].
    destruct (String.eqb_spec s "") as [->|N]; reflexivity. }
  rewrite <- F. unfold run.
  rewrite postApiText_eq, processTextWithOpenAI_eq. cbn [text text_provider].
  rewrite Ht, Hbe. repeat split.
Qed.

Lemma chat_reply_is_first_choice_witness :
  run (postApiText
         {| googleAI := fun _ => inl "unused";
            openAI := fun _ => inr {| choices := [] |};
            deepseekAI := fun _ => inl "unused" |}
         {| text := Js.Str "hi"; text_provider := Js.Str "openai" |}) =
  (Returned (success ""), [OpenAICall (textMessages "gpt-4o" (Js.Str "hi"))]).
Proof.
  exact (proj1 (chat_reply_is_first_choice
                  {| googleAI := fun _ => inl "unused";
                     openAI := fun _ => inr {| choices := [] |};
                     deepseekAI := fun _ => inl "unused" |}
                  (Js.Str "hi") {| choices := [] |} eq_refl eq_refl)).
Defined.

(** X7: a chunk whose [text] is [undefined] is not skipped by the loop: it
    adds the nine characters "undefined" to the accumulated string, between
    what the chunks before it and the chunks after it add. *)
Theorem chunk_without_text_adds_undefined
  (before after : list string) (log : list Event) :
  accumulate
    {| chunks := fragments before ++ {| chunk_text := Js.Undefined |} :: fragments after;
       fault := None |} log =
  (Returned (String.concat "" before ++ "undefined" ++ String.concat "" after), log).
Proof.
  unfold accumulate. cbn [chunks fault].
  rewrite forAwait_eq, joined_app, joined_cons, !joined_fragments. reflexivity.
Qed.

(** ** Validation, both ways *)

(** X8: [/api/image] replies 400 exactly when no file was uploaded or the
    file's MIME type does not begin with [image/] (any remainder, even none,
    is accepted after that prefix); a missing file is reported as "Image file
    is required" and takes precedence, a wrong type as "File must be an
    image".  Provider, question and backend play no part. *)
Theorem image_validation_is_exact (be : Backend) (req : UploadRequest) :
  let out := run (postApiImage be req) in
  (file req = None -> out = (Returned (badRequest "Image file is required"), [])) /\
  (forall f, file req = Some f ->
     (forall rest, mimetype f <> "image/" ++ rest) ->
     out = (Returned (badRequest "File must be an image"), [])) /\
  ((exists message, fst out = Returned (badRequest message)) <->
   (file req = None \/
    exists f, file req = Some f /\ forall rest, mimetype f <> "image/" ++ rest)).
Proof.
  cbv zeta.
  assert (P : forall f, String.prefix "image/" (mimetype f) = false <->
                        forall rest, mimetype f <> "image/" ++ rest).
  { intros f. split.
    - intros H rest E. assert (T : String.prefix "image/" (mimetype f) = true)
        by (apply startsWith_append; now exists rest).
      congruence.
    - intros H. destruct (String.prefix "image/" (mimetype f)) eqn:E; [|reflexivity].
      apply startsWith_append in E as (rest & E). now contradiction (H rest). }
  split; [|split].
  - intros E. unfold run. now rewrite postApiImage_eq, E.
  - intros f E H. apply P in H. unfold run. now rewrite postApiImage_eq, E, H.
  - split.
    + intros (message & E). destruct (file req) as [f|] eqn:Ef; [|now left].
      right. exists f. split; [reflexivity|]. apply P.
      destruct (String.prefix "image/" (mimetype f)) eqn:Hm; [|reflexivity]. exfalso.
      unfold run in E. rewrite postApiImage_eq, Ef, Hm in E. cbn [negb] in E.
      cbv zeta in E.
      destruct (Js.strictEq _ "openai").
      { destruct (chatOutcome _) in E; discriminate E. }
      destruct (Js.strictEq _ "deepseek"); [discriminate E|].
      destruct (streamOutcome _) in E; discriminate E.
    + intros [E | (f & E & H)].
      * exists "Image file is required". unfold run. now rewrite postApiImage_eq, E.
      * exists "File must be an image". apply P in H. unfold run.
        now rewrite postApiImage_eq, E, H.
Qed.

(** X9: [/api/pdf] replies 400 exactly when no file was uploaded or the
    file's MIME type differs from [application/pdf]; a missing file is
    reported as "PDF file is required" and takes precedence, a wrong type as
    "File must be a PDF".  Provider, question and backend play no part. *)
Theorem pdf_validation_is_exact (be : Backend) (req : UploadRequest) :
  let out := run (postApiPdf be req) in
  (file req = None -> out = (Returned (badRequest "PDF file is required"), [])) /\
  (forall f, file req = Some f -> mimetype f <> "application/pdf" ->
     out = (Returned (badRequest "File must be a PDF"), [])) /\
  ((exists message, fst out = Returned (badRequest message)) <->
   (file req = None \/ exists f, file req = Some f /\ mimetype f <> "application/pdf")).
Proof.
  cbv zeta. split; [|split].
  - intros E. unfold run. now rewrite postApiPdf_eq, E.
  - intros f E H. apply String.eqb_neq in H. unfold run. now rewrite postApiPdf_eq, E, H.
  - split.
    + intros (message & E). destruct (file req) as [f|] eqn:Ef; [|now left].
      right. exists f. split; [reflexivity|]. apply String.eqb_neq.
      destruct (mimetype f =? "application/pdf") eqn:Hm; [|reflexivity]. exfalso.
      unfold run in E. rewrite postApiPdf_eq, Ef, Hm in E. cbn [negb] in E. cbv zeta in E.
      destruct (_ || _); [discriminate E|].
      destruct (streamOutcome _) in E; discriminate E.
    + intros [E | (f & E & H)].
      * exists "PDF file is required". unfold run. now rewrite postApiPdf_eq, E.
      * exists "File must be a PDF". apply String.eqb_neq in H. unfold run.
        now rewrite postApiPdf_eq, E, H.
Qed.

(** ** The upload, encoded *)

#[local] Ltac Zify.zify_post_hook ::= Z.to_euclidean_division_equations.

Lemma list_ind3 (A : Type) (P : list A -> Prop) :
  P [] ->
  (forall a, P [a]) ->
  (forall a b, P [a; b]) ->
  (forall a b c l, P l -> P (a :: b :: c :: l)) ->
  forall l, P l.
Proof.
  intros H0 H1 H2 H3. fix IH 1. intros [|a [|b [|c l]]].
  - exact H0.
  - apply H1.
  - apply H2.
  - apply H3, IH.
Qed.

Lemma get_in (n : nat) (s : string) (c : ascii) :
  String.get n s = Some c -> In c (list_ascii_of_string s).
Proof.
  revert n. induction s as [|d s IH]; intros n; simpl; [discriminate|].
  destruct n as [|n]; [intros [= ->]; now left | intros H; right; eauto].
Qed.

Lemma digit_in (n : nat) :
  In (Base64.digit n) (list_ascii_of_string Base64.alphabet) \/
  Base64.digit n = "="%char.
Proof.
  unfold Base64.digit. destruct (String.get n Base64.alphabet) as [c|] eqn:E.
  - left. exact (get_in n _ c E).
  - now right.
Qed.

Lemma encodeBytes_length (bytes : list nat) :
  String.length (Base64.encodeBytes bytes) = 4 * ((length bytes + 2) / 3).
Proof.
  induction bytes as [| a | a b | a b c l IH] using list_ind3; try reflexivity.
  cbn [Base64.encodeBytes String.length length]. rewrite IH. lia.
Qed.

Lemma encodeBytes_alphabet (bytes : list nat) :
  Forall
    (fun c => In c (list_ascii_of_string Base64.alphabet) \/ c = "="%char)
    (list_ascii_of_string (Base64.encodeBytes bytes)).
Proof.
  induction bytes as [| a | a b | a b c l IH] using list_ind3;
    cbn [Base64.encodeBytes list_ascii_of_string];
    repeat (apply Forall_cons; [first [apply digit_in | now right]|]);
    first [exact IH | constructor].
Qed.

Lemma list_ascii_length (s : string) :
  length (list_ascii_of_string s) = String.length s.
Proof. induction s as [|c s IH]; simpl; [reflexivity | now rewrite IH]. Qed.

(** X10: the base64 text of an upload of [n] bytes has [4 * ceil(n / 3)]
    characters, each a letter, a digit, [+], [/] or the padding [=]. *)
Theorem base64_size_and_alphabet (buffer : string) :
  String.length (Base64.encode buffer) = 4 * ((String.length buffer + 2) / 3) /\
  Forall
    (fun c => In c (list_ascii_of_string Base64.alphabet) \/ c = "="%char)
    (list_ascii_of_string (Base64.encode buffer)).
Proof.
  unfold Base64.encode. split.
  - now rewrite encodeBytes_length, length_map, list_ascii_length.
  - apply encodeBytes_alphabet.
Qed.

Lemma digit_value (n : nat) :
  n < 64 -> Base64Decode.value (Base64.digit n) = Some n.
Proof.
  do 64 (destruct n as [|n]; [reflexivity|]). lia.
Qed.

Lemma digit_not_pad (n : nat) :
  n < 64 -> Base64Decode.isPad (Base64.digit n) = false.
Proof.
  do 64 (destruct n as [|n]; [reflexivity|]). lia.
Qed.

Lemma decodeChars_group (v0 v1 v2 v3 : nat) (rest : list ascii) :
  v0 < 64 -> v1 < 64 -> v2 < 64 -> v3 < 64 ->
  Base64Decode.decodeChars
    (Base64.digit v0 :: Base64.digit v1 :: Base64.digit v2 :: Base64.digit v3 :: rest) =
  match Base64Decode.decodeChars rest with
  | Some bytes =>
      Some (v0 * 4 + v1 / 16 :: (v1 mod 16) * 16 + v2 / 4 :: (v2 mod 4) * 64 + v3 :: bytes)
  | None => None
  end.
Proof.
  intros H0 H1 H2 H3.
  destruct rest as [|c rest]; cbn [Base64Decode.decodeChars];
    rewrite ?digit_value, ?digit_not_pad by assumption; cbn [andb]; reflexivity.
Qed.

Lemma decodeChars_one (v0 v1 : nat) :
  v0 < 64 -> v1 < 64 ->
  Base64Decode.decodeChars [Base64.digit v0; Base64.digit v1; "="%char; "="%char] =
  Some [v0 * 4 + v1 / 16].
Proof.
  intros H0 H1. cbn [Base64Decode.decodeChars].
  rewrite !digit_value by assumption.
  change (Base64Decode.isPad "="%char) with true. reflexivity.
Qed.

Lemma decodeChars_two (v0 v1 v2 : nat) :
  v0 < 64 -> v1 < 64 -> v2 < 64 ->
  Base64Decode.decodeChars [Base64.digit v0; Base64.digit v1; Base64.digit v2; "="%char] =
  Some [v0 * 4 + v1 / 16; (v1 mod 16) * 16 + v2 / 4].
Proof.
  intros H0 H1 H2. cbn [Base64Decode.decodeChars].
  rewrite !digit_value, !digit_not_pad by assumption.
  change (Base64Decode.isPad "="%char) with true. reflexivity.
Qed.

Lemma decodeChars_encodeBytes (bytes : list nat) :
  Forall (fun b => b < 256) bytes ->
  Base64Decode.decodeChars (list_ascii_of_string (Base64.encodeBytes bytes)) = Some bytes.
Proof.
  induction bytes as [| a | a b | a b c l IH] using list_ind3; intros Hb.
  - reflexivity.
  - apply Forall_cons_iff in Hb as [Ha _]. cbv beta in Ha.
    cbn [Base64.encodeBytes list_ascii_of_string].
    rewrite decodeChars_one by lia. f_equal. f_equal. lia.
  - apply Forall_cons_iff in Hb as [Ha Hb]. apply Forall_cons_iff in Hb as [Hb _].
    cbv beta in Ha, Hb.
    cbn [Base64.encodeBytes list_ascii_of_string].
    rewrite decodeChars_two by lia. f_equal.
    f_equal; [lia|]. f_equal. lia.
  - apply Forall_cons_iff in Hb as [Ha Hb]. apply Forall_cons_iff in Hb as [Hb Hc].
    apply Forall_cons_iff in Hc as [Hc Hl]. cbv beta in Ha, Hb, Hc.
    cbn [Base64.encodeBytes list_ascii_of_string].
    rewrite decodeChars_group by lia. rewrite (IH Hl). f_equal.
    f_equal; [lia|]. f_equal; [lia|]. f_equal. lia.
Qed.

Lemma decode_encode (buffer : string) :
  Base64Decode.decode (Base64.encode buffer) = Some buffer.
Proof.
  unfold Base64Decode.decode, Base64.encode.
  rewrite decodeChars_encodeBytes.
  - rewrite map_map. f_equal.
    rewrite <- (string_of_list_ascii_of_string buffer) at 2. f_equal.
    rewrite <- (map_id (list_ascii_of_string buffer)) at 2.
    apply map_ext. intros c. apply ascii_nat_embedding.
  - apply Forall_forall. intros n Hn. apply in_map_iff in Hn as (c & <- & _).
    apply nat_ascii_bounded.
Qed.

(** X11: base64 loses nothing: decoding the encoded upload gives back
    exactly the uploaded bytes, so two different uploads are never sent as the
    same text. *)
Theorem base64_round_trip (buffer other : string) :
  Base64Decode.decode (Base64.encode buffer) = Some buffer /\
  (Base64.encode buffer = Base64.encode other -> buffer = other).
Proof.
  pose proof decode_encode as R.
  split; [apply R|].
  intros E. pose proof (R buffer) as Rb. rewrite E, R in Rb. now injection Rb.
Qed.

(** X12: with a valid upload and a provider that has the modality, the one
    backend call of [/api/image] and of [/api/pdf] carries the whole file:
    text that decodes to exactly the uploaded bytes, labelled with the
    upload's own MIME type for an image (inline for Google, before the
    prompt; as a [data:] URL for OpenAI, after the prompt) and with
    [application/pdf] for a document. *)
Theorem upload_is_sent_whole (be : Backend) (q p : Js.Value) (f : File) :
  (String.prefix "image/" (mimetype f) = true ->
   Js.strictEq p "deepseek" = false ->
   exists data,
     Base64Decode.decode data = Some (buffer f) /\
     filter isBackendCall
       (snd (run (postApiImage be
                    {| body := {| question := q; provider := p |}; file := Some f |}))) =
     [if Js.strictEq p "openai" then
        OpenAICall
          {| chat_model := "gpt-4o"; chat_system := jsonInstruction;
             chat_user :=
               PartsContent
                 [ContentText (Js.orElse q (Js.Str defaultImageQuestion));
                  ContentImageUrl ("data:" ++ mimetype f ++ ";base64," ++ data)] |}
      else
        GoogleCall
          {| gc_model := "gemini-2.0-flash"; gc_responseMimeType := "application/json";
             gc_parts :=
               [InlineData data (mimetype f);
                TextPart (Js.orElse q (Js.Str defaultImageQuestion))] |}]) /\
  (mimetype f = "application/pdf" ->
   selectsGoogle p = true ->
   exists data,
     Base64Decode.decode data = Some (buffer f) /\
     filter isBackendCall
       (snd (run (postApiPdf be
                    {| body := {| question := q; provider := p |}; file := Some f |}))) =
     [GoogleCall
        {| gc_model := "gemini-2.0-flash"; gc_responseMimeType := "application/json";
           gc_parts :=
             [InlineData data "application/pdf";
              TextPart (Js.orElse q (Js.Str defaultPdfQuestion))] |}]).
Proof.
  split.
  - intros Hm Hd. exists (Base64.encode (buffer f)).
    split; [apply decode_encode|].
    unfold run. rewrite postApiImage_eq. cbn [file body provider question].
    rewrite Hm. cbn [negb app]. cbv zeta.
    rewrite !defaultTo_strictEq by reflexivity. rewrite Hd.
    destruct (Js.strictEq p "openai"); now apply finish_calls.
  - intros Hm Hp. exists (Base64.encode (buffer f)).
    split; [apply decode_encode|].
    unfold run. rewrite postApiPdf_eq. cbn [file body provider question].
    rewrite Hm, String.eqb_refl. cbn [negb app]. cbv zeta.
    rewrite !defaultTo_strictEq by reflexivity.
    unfold selectsGoogle in Hp. apply negb_true_iff in Hp. rewrite Hp.
    now apply finish_calls.
Qed.

Lemma upload_is_sent_whole_witness :
  exists data,
    Base64Decode.decode data = Some (buffer pdf) /\
    filter isBackendCall
      (snd (run (postApiPdf (refusing "ECONNREFUSED")
                   {| body := {| question := Js.Undefined; provider := Js.Undefined |};
                      file := Some pdf |}))) =
    [GoogleCall
       {| gc_model := "gemini-2.0-flash"; gc_responseMimeType := "application/json";
          gc_parts :=
            [InlineData data "application/pdf";
             TextPart (Js.orElse Js.Undefined (Js.Str defaultPdfQuestion))] |}].
Proof.
  exact (proj2 (upload_is_sent_whole (refusing "ECONNREFUSED") Js.Undefined Js.Undefined pdf)
           eq_refl eq_refl).
Defined.

(** * The redirect to HTTPS *)

Lemma append_inv_head (a b c : string) : a ++ b = a ++ c -> b = c.
Proof.
  induction a as [|x a IH]; simpl; [trivial|]. intros [= E]. now apply IH.
Qed.

Lemma allDigits_app (a b : string) :
  allDigits (a ++ b) = allDigits a && allDigits b.
Proof.
  induction a as [|c a IH]; simpl; [reflexivity|]. now rewrite IH, andb_assoc.
Qed.

Lemma isPort_iff (s : string) :
  isPort s = true <-> exists ds, s = ":" ++ ds /\ ds <> "" /\ allDigits ds = true.
Proof.
  destruct s as [|c rest]; simpl.
  - split; [discriminate | intros (ds & E & _); discriminate].
  - rewrite !andb_true_iff, negb_true_iff, Ascii.eqb_eq, String.eqb_neq. split.
    + intros [[-> Hn] Hd]. now exists rest.
    + intros (ds & [= -> ->] & Hn & Hd). now repeat split.
Qed.

Lemma isPort_before_colon (c : ascii) (h ds : string) :
  isPort (String c (h ++ String ":" ds)) = false.
Proof.
  cbn [isPort]. rewrite allDigits_app. cbn [allDigits].
  replace (isDigit ":") with false by reflexivity.
  now rewrite andb_false_r, andb_false_r.
Qed.

Lemma replacePort_port (h ds : string) :
  ds <> "" -> allDigits ds = true -> replacePort (h ++ ":" ++ ds) = h ++ ":443".
Proof.
  intros Hn Hd. change (h ++ ":" ++ ds) with (h ++ String ":" ds).
  induction h as [|c h IH].
  - cbn [append replacePort].
    assert (P : isPort (String ":" ds) = true) by (apply isPort_iff; now exists ds).
    now rewrite P.
  - cbn [append replacePort]. rewrite (isPort_before_colon c h ds). now rewrite IH.
Qed.

Lemma replacePort_cases (h : string) :
  (replacePort h = h /\
   forall h0 ds, h = h0 ++ ":" ++ ds -> ds = "" \/ allDigits ds = false) \/
  (exists h0 ds,
     h = h0 ++ ":" ++ ds /\ ds <> "" /\ allDigits ds = true /\
     replacePort h = h0 ++ ":443").
Proof.
  induction h as [|c h IH].
  - left. split; [reflexivity|]. intros [|x h0] ds E; discriminate E.
  - destruct (isPort (String c h)) eqn:P.
    + right. apply isPort_iff in P as (ds & E & Hn & Hd).
      exists "", ds. cbn [append] in *. rewrite E. repeat split; auto.
      apply (replacePort_port "" ds Hn Hd).
    + destruct IH as [[E N] | (h0 & ds & E & Hn & Hd & R)].
      * left. split; [cbn [replacePort]; now rewrite P, E|].
        intros [|x h0] ds F.
        -- cbn [append] in F. destruct ds as [|d ds]; [now left|]. right.
           destruct (allDigits (String d ds)) eqn:D; [|reflexivity].
           assert (T : isPort (String c h) = true).
           { apply isPort_iff. exists (String d ds). split; [exact F|]. now split. }
           congruence.
        -- cbn [append] in F. injection F as _ F. exact (N h0 ds F).
      * right. exists (String c h0), ds. cbn [append]. repeat split; auto.
        -- now rewrite E.
        -- cbn [replacePort]. now rewrite P, R.
Qed.

(** X13: the host rewrite replaces a trailing port, and only that: a host
    that ends in a colon and one or more digits keeps everything before the
    colon and ends in [:443]; any other host (no colon, a colon with nothing
    after it, or with something that is not all digits) is returned
    unchanged. *)
Theorem replacePort_rewrites_trailing_port (h : string) :
  (forall h0 ds,
     h = h0 ++ ":" ++ ds -> ds <> "" -> allDigits ds = true ->
     replacePort h = h0 ++ ":443") /\
  ((forall h0 ds, h = h0 ++ ":" ++ ds -> ds = "" \/ allDigits ds = false) ->
   replacePort h = h) /\
  (replacePort h = h \/ exists h0, replacePort h = h0 ++ ":443").
Proof.
  split; [|split].
  - intros h0 ds -> Hn Hd. now apply replacePort_port.
  - intros N. destruct (replacePort_cases h) as [[E _] | (h0 & ds & E & Hn & Hd & _)];
      [exact E|].
    destruct (N h0 ds E) as [F | F]; congruence.
  - destruct (replacePort_cases h) as [[E _] | (h0 & ds & _ & _ & _ & R)];
      [now left | right; now exists h0].
Qed.

Lemma replacePort_rewrites_trailing_port_witness :
  replacePort "localhost:3000" = "localhost" ++ ":443".
Proof.
  apply (proj1 (replacePort_rewrites_trailing_port "localhost:3000") "localhost" "3000").
  - reflexivity.
  - discriminate.
  - reflexivity.
Defined.

Lemma replacePort_idem (h : string) : replacePort (replacePort h) = replacePort h.
Proof.
  destruct (replacePort_cases h) as [[E _] | (h0 & ds & _ & _ & _ & R)].
  - now rewrite E.
  - rewrite R. apply (replacePort_port h0 "443"); [discriminate | reflexivity].
Qed.

(** X14: rewriting a host twice changes nothing more, and a rewritten host
    never ends in a numeric port other than 443. *)
Theorem replacePort_leaves_only_443 (h h0 ds : string) :
  replacePort h = h0 ++ ":" ++ ds ->
  ds <> "" ->
  allDigits ds = true ->
  ds = "443" /\ replacePort (replacePort h) = replacePort h.
Proof.
  intros E Hn Hd. split; [|apply replacePort_idem].
  pose proof (replacePort_idem h) as I. rewrite E in I.
  rewrite (replacePort_port h0 ds Hn Hd) in I.
  apply append_inv_head in I. cbn [append] in I. now injection I.
Qed.

Lemma replacePort_leaves_only_443_witness :
  "443" = "443" /\
  replacePort (replacePort "example.org:8443") = replacePort "example.org:8443".
Proof.
  apply (replacePort_leaves_only_443 "example.org:8443" "example.org" "443").
  - reflexivity.
  - discriminate.
  - reflexivity.
Defined.

(** X15: the middleware redirects a request exactly when its protocol is
    [http], always with code 301 and to [https://], the rewritten host and the
    original path and query unchanged; a request without a [Host] header is
    sent to [https://] followed directly by the path; any other protocol is
    passed on. *)
Theorem redirect_is_for_http_only (req : IncomingMessage) :
  (protocol req = "http" ->
   redirectToHttps req =
     Redirected 301
       ("https://" ++
        match host req with
        | Js.Str h => replacePort h
        | Js.Undefined | Js.Null => ""
        end ++ originalUrl req)) /\
  (protocol req <> "http" -> redirectToHttps req = Next) /\
  (forall h0 ds,
     protocol req = "http" -> host req = Js.Str (h0 ++ ":" ++ ds) ->
     ds <> "" -> allDigits ds = true ->
     redirectToHttps req = Redirected 301 ("https://" ++ h0 ++ ":443" ++ originalUrl req)).
Proof.
  assert (H : forall v,
             redirectHost v =
             match v with
             | Js.Str h => replacePort h
             | Js.Undefined | Js.Null => ""
             end).
  { intros [| |h]; try reflexivity.
    unfold redirectHost, Js.orEmpty, Js.orElse. cbn [Js.truthy].
    destruct (String.eqb_spec (replacePort h) "") as [->|N]; reflexivity. }
  unfold redirectToHttps. split; [|split].
  - intros ->. cbn [String.eqb Ascii.eqb Bool.eqb]. now rewrite H.
  - intros N. apply String.eqb_neq in N. now rewrite N.
  - intros h0 ds -> Hh Hn Hd. cbn [String.eqb Ascii.eqb Bool.eqb].
    rewrite H, Hh, (replacePort_port h0 ds Hn Hd). now rewrite append_assoc.
Qed.

Lemma redirect_is_for_http_only_witness :
  redirectToHttps {| protocol := "http"; host := Js.Undefined; originalUrl := "/api/text?x=1" |} =
  Redirected 301 ("https://" ++ "" ++ "/api/text?x=1").
Proof.
  exact (proj1 (redirect_is_for_http_only
                  {| protocol := "http"; host := Js.Undefined;
                     originalUrl := "/api/text?x=1" |}) eq_refl).
Defined.

(** * Start-up *)




